(** * A relay between a browser audio client and a realtime speech API,
      with a retrieval side channel

    Shallow embedding of the two server variants of the repository:

    - [Plain]: the speech-only relay ([src/index.js]);
    - [Rag]: the relay with turn interception and the retrieval
      orchestrator ([src/unnamed/part_000]).

    JavaScript values are embedded as the inductive [value]; the handlers
    are written in a small state/exception/trace monad over the
    module-level variables of the server. Calls that leave the process
    (search, completion, the session connection, the client socket) are
    recorded in the trace, and what they return is supplied from outside. *)

From Stdlib Require Import ZArith QArith String Ascii List Bool Lia.
From Stdlib Require Import DecimalString Decimal.
From stdpp Require Import base option list gmap sets strings.
Import ListNotations.

Set Warnings "-register-all".
Local Open Scope string_scope.
Local Open Scope list_scope.

(** ** JavaScript values *)

Module JS.

(** A value as [JSON.parse] or an object literal builds it. Numbers are
    integers: no event field the server inspects is fractional. An object
    is the list of its own properties, keys distinct. *)
Inductive value : Type :=
| VUndef
| VNull
| VBool (b : bool)
| VNum (n : Z)
| VStr (s : string)
| VArr (elems : list value)
| VObj (props : list (string * value)).

(** What a [throw] or a rejected promise carries. [Failure] is raised by
    a call that leaves the process. *)
Inductive exn : Type :=
| TypeError
| SyntaxError
| Error (message : string)
| Failure.

Inductive outcome (A : Type) : Type :=
| Done (a : A)
| Thrown (e : exn).
Arguments Done {A} a.
Arguments Thrown {A} e.

Definition is_nullish (v : value) : bool :=
  match v with VUndef | VNull => true | _ => false end.

(** ToBoolean. *)
Definition truthy (v : value) : bool :=
  match v with
  | VUndef | VNull => false
  | VBool b => b
  | VNum n => negb (n =? 0)%Z
  | VStr s => negb (String.eqb s "")
  | VArr _ | VObj _ => true
  end.

Fixpoint assoc (k : string) (props : list (string * value)) : value :=
  match props with
  | [] => VUndef
  | (k', v) :: rest => if String.eqb k k' then v else assoc k rest
  end.

Definition string_of_nat (n : nat) : string :=
  NilZero.string_of_uint (Nat.to_uint n).

Definition char_at (s : string) (i : nat) : value :=
  match String.get i s with
  | Some c => VStr (String c EmptyString)
  | None => VUndef
  end.

(** [v.k] for a named property [k]. Reading a property of [undefined] or
    [null] throws; a string and an array have a [length]; other
    primitives have no own property. *)
Definition get (v : value) (k : string) : outcome value :=
  match v with
  | VUndef | VNull => Thrown TypeError
  | VObj props => Done (assoc k props)
  | VStr s => Done (if String.eqb k "length" then VNum (Z.of_nat (String.length s)) else VUndef)
  | VArr l => Done (if String.eqb k "length" then VNum (Z.of_nat (List.length l)) else VUndef)
  | VBool _ | VNum _ => Done VUndef
  end.

(** [v[i]] for a literal index [i]. *)
Definition get_index (v : value) (i : nat) : outcome value :=
  match v with
  | VUndef | VNull => Thrown TypeError
  | VObj props => Done (assoc (string_of_nat i) props)
  | VStr s => Done (char_at s i)
  | VArr l => Done (nth i l VUndef)
  | VBool _ | VNum _ => Done VUndef
  end.

(** [v?.k]. *)
Definition get_opt (v : value) (k : string) : value :=
  match get v k with
  | Done x => x
  | Thrown _ => VUndef
  end.

(** [v === 'lit']. *)
Definition is_str (v : value) (lit : string) : bool :=
  match v with
  | VStr s => String.eqb s lit
  | _ => false
  end.

(** [v === n] for a number literal. *)
Definition is_num (v : value) (n : Z) : bool :=
  match v with
  | VNum m => (m =? n)%Z
  | _ => false
  end.

(** [a || b] on values. *)
Definition or_else (a b : value) : value := if truthy a then a else b.

(** *** Strings *)

Definition startsWith (s p : string) : bool := String.prefix p s.

(** White space and line terminators, for strings of ASCII characters. *)
Definition is_space (c : ascii) : bool :=
  match nat_of_ascii c with
  | 9 | 10 | 11 | 12 | 13 | 32 => true
  | _ => false
  end.

Fixpoint trimStart (s : string) : string :=
  match s with
  | EmptyString => EmptyString
  | String c rest => if is_space c then trimStart rest else s
  end.

Fixpoint trimEnd (s : string) : string :=
  match s with
  | EmptyString => EmptyString
  | String c rest =>
      match trimEnd rest with
      | EmptyString => if is_space c then EmptyString else String c EmptyString
      | t => String c t
      end
  end.

Definition trim (s : string) : string := trimEnd (trimStart s).

(** [s.substring(0, n)]. *)
Definition substring0 (n : nat) (s : string) : string := String.substring 0 n s.

(** [toLowerCase], for strings of ASCII characters. *)
Definition lower_char (c : ascii) : ascii :=
  let n := nat_of_ascii c in
  if (65 <=? n)%nat && (n <=? 90)%nat then ascii_of_nat (n + 32) else c.

Fixpoint toLowerCase (s : string) : string :=
  match s with
  | EmptyString => EmptyString
  | String c rest => String (lower_char c) (toLowerCase rest)
  end.

Fixpoint includes (s needle : string) : bool :=
  String.prefix needle s ||
  match s with
  | EmptyString => false
  | String _ rest => includes rest needle
  end.

(** [l.join(sep)] for a list of strings. *)
Fixpoint join (sep : string) (l : list string) : string :=
  match l with
  | [] => ""
  | [x] => x
  | x :: rest => x +:+ sep +:+ join sep rest
  end.

(** ToString, as string concatenation applies it. *)
Fixpoint toString (v : value) : string :=
  match v with
  | VUndef => "undefined"
  | VNull => "null"
  | VBool true => "true"
  | VBool false => "false"
  | VNum n => NilZero.string_of_int (Z.to_int n)
  | VStr s => s
  | VArr l =>
      join "," (List.map (fun x => if is_nullish x then "" else toString x) l)
  | VObj _ => "[object Object]"
  end.

End JS.
Export JS.

(** ** The process: store, trace and the handler monad *)

(** A client socket, identified by a number. The closure of its
    connection handler owns one realtime client and one message queue. *)
Definition ws : Type := nat.

(** The body of the completion request, before [JSON.stringify]. *)
Record chat_body : Type := {
  model : string;
  messages : list (string * string);
  max_tokens : Z;
  temperature : Q
}.

Record request : Type := {
  url : string;
  method : string;
  headers : list (string * string);
  body : chat_body
}.

(** What a handler does that is visible outside it. A call is recorded
    when it is made; writes to the gate [isProcessingRAG] are recorded as
    well, so that they can be counted and ordered against the sends. *)
Inductive action : Type :=
| ws_send (w : ws) (data : string)
| ws_close (w : ws)
| realtime_connect (w : ws)
| realtime_disconnect (w : ws)
| realtime_send (w : ws) (eventName : value) (data : value)
| timer_send (delay : Z) (w : ws) (eventName : value) (data : value)
| search_call (query : string) (top : Z)
| fetch_call (req : request)
| assign_isProcessingRAG (b : bool)
| call_performRAGProcess (w : ws) (userQuery : string)
| res_status (code : Z).

Record ConnectionState : Type := { ragMode : bool }.

(** [client.isConnected()] and [messageQueue] of one connection. *)
Record Session : Type := {
  isConnected : bool;
  messageQueue : list string
}.

(** The variables of the module, and with them what the closures of the
    connection handlers hold ([sessions]) and the calls of
    [performRAGProcess] that have been made and have not settled
    ([inflight]; the source keeps no reference to these promises). *)
Record Store : Type := {
  isProcessingRAG : bool;
  userTranscriptForRAG : string;
  isRAGActiveThisTurn : bool;
  connectionStates : gmap ws ConnectionState;
  wsConnections : gset ws;
  sessions : gmap ws Session;
  inflight : list (ws * string)
}.

Definition set_isProcessingRAG (b : bool) (s : Store) : Store :=
  {| isProcessingRAG := b;
     userTranscriptForRAG := userTranscriptForRAG s;
     isRAGActiveThisTurn := isRAGActiveThisTurn s;
     connectionStates := connectionStates s;
     wsConnections := wsConnections s;
     sessions := sessions s;
     inflight := inflight s |}.

Definition set_userTranscriptForRAG (t : string) (s : Store) : Store :=
  {| isProcessingRAG := isProcessingRAG s;
     userTranscriptForRAG := t;
     isRAGActiveThisTurn := isRAGActiveThisTurn s;
     connectionStates := connectionStates s;
     wsConnections := wsConnections s;
     sessions := sessions s;
     inflight := inflight s |}.

Definition set_isRAGActiveThisTurn (b : bool) (s : Store) : Store :=
  {| isProcessingRAG := isProcessingRAG s;
     userTranscriptForRAG := userTranscriptForRAG s;
     isRAGActiveThisTurn := b;
     connectionStates := connectionStates s;
     wsConnections := wsConnections s;
     sessions := sessions s;
     inflight := inflight s |}.

Definition set_connectionStates (m : gmap ws ConnectionState) (s : Store) : Store :=
  {| isProcessingRAG := isProcessingRAG s;
     userTranscriptForRAG := userTranscriptForRAG s;
     isRAGActiveThisTurn := isRAGActiveThisTurn s;
     connectionStates := m;
     wsConnections := wsConnections s;
     sessions := sessions s;
     inflight := inflight s |}.

Definition set_wsConnections (c : gset ws) (s : Store) : Store :=
  {| isProcessingRAG := isProcessingRAG s;
     userTranscriptForRAG := userTranscriptForRAG s;
     isRAGActiveThisTurn := isRAGActiveThisTurn s;
     connectionStates := connectionStates s;
     wsConnections := c;
     sessions := sessions s;
     inflight := inflight s |}.

Definition set_sessions (m : gmap ws Session) (s : Store) : Store :=
  {| isProcessingRAG := isProcessingRAG s;
     userTranscriptForRAG := userTranscriptForRAG s;
     isRAGActiveThisTurn := isRAGActiveThisTurn s;
     connectionStates := connectionStates s;
     wsConnections := wsConnections s;
     sessions := m;
     inflight := inflight s |}.

Definition set_inflight (l : list (ws * string)) (s : Store) : Store :=
  {| isProcessingRAG := isProcessingRAG s;
     userTranscriptForRAG := userTranscriptForRAG s;
     isRAGActiveThisTurn := isRAGActiveThisTurn s;
     connectionStates := connectionStates s;
     wsConnections := wsConnections s;
     sessions := sessions s;
     inflight := l |}.

(** The store when the server has started and nobody has connected. *)
Definition startup : Store :=
  {| isProcessingRAG := false;
     userTranscriptForRAG := "";
     isRAGActiveThisTurn := false;
     connectionStates := ∅;
     wsConnections := ∅;
     sessions := ∅;
     inflight := [] |}.

(** A piece of synchronous code: from a store to how it completes, the
    store it leaves and what it did. *)
Definition M (A : Type) : Type := Store -> outcome A * Store * list action.

Definition ret {A} (a : A) : M A := fun s => (Done a, s, []).

Definition bind {A B} (m : M A) (k : A -> M B) : M B := fun s =>
  match m s with
  | (Done a, s1, t1) =>
      match k a s1 with
      | (r, s2, t2) => (r, s2, t1 ++ t2)
      end
  | (Thrown e, s1, t1) => (Thrown e, s1, t1)
  end.

Definition throw {A} (e : exn) : M A := fun s => (Thrown e, s, []).

(** [try { m } catch (e) { h e }]. *)
Definition try_catch {A} (m : M A) (h : exn -> M A) : M A := fun s =>
  match m s with
  | (Done a, s1, t1) => (Done a, s1, t1)
  | (Thrown e, s1, t1) =>
      match h e s1 with
      | (r, s2, t2) => (r, s2, t1 ++ t2)
      end
  end.

Definition lift {A} (o : outcome A) : M A := fun s => (o, s, []).
Definition read {A} (f : Store -> A) : M A := fun s => (Done (f s), s, []).
Definition write (f : Store -> Store) : M unit := fun s => (Done tt, f s, []).
Definition emit (a : action) : M unit := fun s => (Done tt, s, [a]).

Declare Scope js_scope.
Delimit Scope js_scope with js.
Notation "'let!' x ':=' m 'in' k" := (bind m (fun x => k))
  (at level 10, x name, m at level 100, k at level 200) : js_scope.
Notation "m ;; k" := (bind m (fun _ => k))
  (at level 100, k at level 200, right associativity) : js_scope.
Local Open Scope js_scope.

Definition when (b : bool) (m : M unit) : M unit := if b then m else ret tt.

(** [l.forEach(body)]. *)
Fixpoint forEach {A} (l : list A) (body : A -> M unit) : M unit :=
  match l with
  | [] => ret tt
  | x :: rest => body x ;; forEach rest body
  end.

(** Projections of a finished piece of code. *)
Definition result_of {A} (r : outcome A * Store * list action) : outcome A := fst (fst r).
Definition store_of {A} (r : outcome A * Store * list action) : Store := snd (fst r).
Definition trace_of {A} (r : outcome A * Store * list action) : list action := snd r.

Definition returns {A} (r : outcome A * Store * list action) : bool :=
  match result_of r with Done _ => true | Thrown _ => false end.

(** [isProcessingRAG = b]. *)
Definition assign_processing (b : bool) : M unit :=
  write (set_isProcessingRAG b) ;; emit (assign_isProcessingRAG b).

(** [v.startsWith(p)]: only a string has the method. *)
Definition call_startsWith (v : value) (p : string) : outcome bool :=
  match v with
  | VStr s => Done (startsWith s p)
  | _ => Thrown TypeError
  end.

(** [v.toLowerCase()]. *)
Definition call_toLowerCase (v : value) : outcome string :=
  match v with
  | VStr s => Done (toLowerCase s)
  | _ => Thrown TypeError
  end.

(** [v.substring(0, n)]. *)
Definition call_substring0 (v : value) (n : nat) : outcome string :=
  match v with
  | VStr s => Done (substring0 n s)
  | _ => Thrown TypeError
  end.

(** [Object.keys(v)], for whether it throws. *)
Definition object_keys (v : value) : outcome unit :=
  if is_nullish v then Thrown TypeError else Done tt.

(** [s.replace(/rag test/i, '')]: the first match, whatever its case, is
    removed. *)
Fixpoint remove_rag_test (s : string) : string :=
  if String.prefix "rag test" (toLowerCase s)
  then String.substring 8 (String.length s - 8) s
  else match s with
       | EmptyString => EmptyString
       | String c rest => String c (remove_rag_test rest)
       end.

(** What the search service and the completion endpoint answer to one run
    of the retrieval process, and whether the session connection takes
    what the run sends. *)
Record response : Type := {
  ok : bool;
  status : Z;
  text : outcome string;
  json : outcome value
}.

Record rag_env : Type := {
  (** the documents of the results, or the rejection of the search or of
      the iteration over its results *)
  search_results : outcome (list value);
  fetch_result : outcome response;
  send_accepts : bool
}.

(** What reaches the process from outside. *)
Inductive input : Type :=
| connection (w : ws)
| connect_resolved (w : ws)
| connect_rejected (w : ws)
| server_event (w : ws) (event : value)
| realtime_close (w : ws)
| message (w : ws) (data : string)
| close (w : ws)
| post_webhook (req_body : value) (search : outcome (list value))
| rag_settled (w : ws) (userQuery : string) (env : rag_env).

(** ** The speech-only relay ([src/index.js]) *)

Module Plain.
Section Relay.

Variable JSON_parse : string -> outcome value.
Variable JSON_stringify : value -> string.

(** [client.realtime.on("server.*", ...)]; the log line reads
    [event.type]. *)
Definition on_server_event (w : ws) (event : value) : M unit :=
  let! _ := lift (get event "type") in
  emit (ws_send w (JSON_stringify event)).

(** A throw of [send] is caught with the parse errors and only logged:
    the call is recorded as made. *)
Definition messageHandler (w : ws) (data : string) : M unit :=
  try_catch
    (let! event := lift (JSON_parse data) in
     let! type := lift (get event "type") in
     emit (realtime_send w type event))
    (fun _ => ret tt).

(** [performRAGSearch] and its loop, as in the other variant. *)
Fixpoint collect_documents (results documents : list value) : M (list value) :=
  match results with
  | [] => ret documents
  | document :: rest =>
      lift (object_keys document) ;;
      collect_documents rest (documents ++ [document])
  end.

Definition performRAGSearch (search : outcome (list value)) (query : string) : M (list value) :=
  try_catch
    (emit (search_call query 2) ;;
     let! results := lift search in
     collect_documents results [])
    (fun _ => ret []).

(** [const state = connectionStates.get(ws); if (state) state.ragMode = b] *)
Definition set_ragMode (b : bool) (w : ws) : M unit :=
  let! states := read connectionStates in
  match states !! w with
  | Some _ => write (set_connectionStates (<[w := {| ragMode := b |}]> states))
  | None => ret tt
  end.

(** [text.replace(/rag test/i, '').trim() || 'test query'] *)
Definition test_query (text : string) : string :=
  let q := trim (remove_rag_test text) in
  if String.eqb q "" then "test query" else q.

(** The commands of a chat message; ['rag off'] only switches the modes. *)
Definition chat_command (search : outcome (list value)) (text : value) : M unit :=
  match text with
  | VStr t =>
      let lower := toLowerCase t in
      let! sockets := read wsConnections in
      if includes lower "rag on" then forEach (elements sockets) (set_ragMode true)
      else if includes lower "rag off" then forEach (elements sockets) (set_ragMode false)
      else if includes lower "rag test"
           then (let! _ := performRAGSearch search (test_query t) in ret tt)
           else ret tt
  | _ => throw TypeError
  end.

(** [app.post('/webhook', ...)]. *)
Definition webhook (search : outcome (list value)) (req_body : value) : M unit :=
  try_catch
    (let! event := lift (get req_body "event") in
     let! data := lift (get req_body "data") in
     (if is_str event "participant_events.chat_message"
      then
        let! d1 := lift (get data "data") in
        let! d2 := lift (get d1 "data") in
        let! text := lift (get d2 "text") in
        let! sender := lift (get d1 "participant") in
        let! _ := lift (get sender "name") in
        chat_command search text
      else ret tt) ;;
     emit (res_status 200))
    (fun _ => emit (res_status 500)).

Definition set_session (w : ws) (se : Session) : M unit :=
  let! all := read sessions in
  write (set_sessions (<[w := se]> all)).

(** [wss.on("connection", ...)] up to the [await] of [client.connect()]. *)
Definition on_connection (w : ws) : M unit :=
  let! sockets := read wsConnections in
  write (set_wsConnections ({[w]} ∪ sockets)) ;;
  let! states := read connectionStates in
  write (set_connectionStates (<[w := {| ragMode := false |}]> states)) ;;
  set_session w {| isConnected := false; messageQueue := [] |} ;;
  emit (realtime_connect w).

(** [ws.on("message", ...)]. *)
Definition on_message (w : ws) (data : string) : M unit :=
  let! all := read sessions in
  match all !! w with
  | None => ret tt
  | Some se =>
      if negb (isConnected se)
      then set_session w {| isConnected := false; messageQueue := messageQueue se ++ [data] |}
      else messageHandler w data
  end.

(** [while (messageQueue.length) messageHandler(messageQueue.shift())] *)
Fixpoint drain (w : ws) (queue : list string) : M unit :=
  match queue with
  | [] => ret tt
  | data :: rest =>
      set_session w {| isConnected := true; messageQueue := rest |} ;;
      messageHandler w data ;;
      drain w rest
  end.

(** The continuation of [await client.connect()] when it resolves. *)
Definition on_connect_resolved (w : ws) : M unit :=
  let! all := read sessions in
  match all !! w with
  | None => ret tt
  | Some se =>
      set_session w {| isConnected := true; messageQueue := messageQueue se |} ;;
      drain w (messageQueue se)
  end.

End Relay.
End Plain.

(** ** The relay with turn interception ([src/unnamed/part_000]) *)

Module Rag.

Definition no_results_text : string :=
  "I couldn't find specific information for that in my documents. How else can I assist you?".

Definition error_text : string :=
  "I encountered an issue while trying to access my knowledge base. Please try again or ask something else.".

Definition speak_instructions : string := "Speak the provided message naturally.".

(** [{ type: 'message', role: 'assistant', content: [{ type: 'input_text', text }] }] *)
Definition assistant_item (text : value) : value :=
  VObj [("type", VStr "message");
        ("role", VStr "assistant");
        ("content", VArr [VObj [("type", VStr "input_text"); ("text", text)]])].

(** [{ modalities: ["audio"], instructions: "Speak ..." }] *)
Definition audio_response : value :=
  VObj [("modalities", VArr [VStr "audio"]);
        ("instructions", VStr speak_instructions)].

Definition system_prompt (contextText : string) : string :=
  "You are a helpful assistant. Use this context to answer the question:"
  +:+ String "010" (String "010" contextText).

(** [`Document ${i + 1}:\n${shortContent}`] *)
Definition document_label (i : nat) (shortContent : string) : string :=
  "Document " +:+ string_of_nat (i + 1) +:+ ":" +:+ String "010" shortContent.

Definition blank_line : string := String "010" (String "010" "").

Section Server.

Variable JSON_parse : string -> outcome value.
Variable JSON_stringify : value -> string.
Variable OPENAI_API_KEY : string.

(** *** Turn interception on provider events *)

(** The test of the first branch of the handler, on an event whose type
    is the string [type]:
    [event.type.startsWith('response.') ||
     (event.type === 'conversation.item.created' && event.item?.role === 'assistant')]. *)
Definition response_construction (event : value) (type : string) : bool :=
  startsWith type "response."
  || String.eqb type "conversation.item.created"
     && is_str (get_opt (get_opt event "item") "role") "assistant".

(** The same test on any event: [startsWith] is a method of strings
    only. *)
Definition is_assistant_response (event : value) : outcome bool :=
  match get event "type" with
  | Thrown e => Thrown e
  | Done (VStr type) => Done (response_construction event type)
  | Done _ => Thrown TypeError
  end.

(** [currentConnectionState?.ragMode === true]. *)
Definition ragMode_is_true (w : ws) (s : Store) : bool :=
  match connectionStates s !! w with
  | Some st => ragMode st
  | None => false
  end.

Definition on_speech_started (w : ws) : M unit :=
  write (set_userTranscriptForRAG "") ;;
  let! enabled := read (ragMode_is_true w) in
  let! processing := read isProcessingRAG in
  if enabled && negb processing
  then write (set_isRAGActiveThisTurn true)
  else write (set_isRAGActiveThisTurn false).

Definition on_transcript_delta (event : value) : M unit :=
  let! text := lift (get event "text") in
  when (truthy text)
    (let! buffer := read userTranscriptForRAG in
     write (set_userTranscriptForRAG (buffer +:+ toString text))).

(** The call of [performRAGProcess] is not awaited: the handler goes on
    while the run is in flight. Returns [shouldRelayEvent]. *)
Definition on_transcript_done (w : ws) : M bool :=
  write (set_isRAGActiveThisTurn false) ;;
  let! buffer := read userTranscriptForRAG in
  if negb (String.eqb (trim buffer) "")
  then
    assign_processing true ;;
    emit (call_performRAGProcess w (trim buffer)) ;;
    let! running := read inflight in
    write (set_inflight (running ++ [(w, trim buffer)])) ;;
    ret false
  else
    assign_processing false ;;
    ret true.

(** [client.realtime.on("server.*", (event) => ...)] of the connection of
    [w]. The branch on [speech_stopped] only logs. *)
Definition on_server_event (w : ws) (event : value) : M unit :=
  let! processing := read isProcessingRAG in
  let! blocked := (if processing then lift (is_assistant_response event) else ret false) in
  if blocked then ret tt
  else
    let! type := lift (get event "type") in
    when (is_str type "input_audio_buffer.speech_started") (on_speech_started w) ;;
    let! armed := read isRAGActiveThisTurn in
    when (armed && is_str type "response.audio_transcript.delta") (on_transcript_delta event) ;;
    let! armed := read isRAGActiveThisTurn in
    let! shouldRelayEvent :=
      (if armed && is_str type "response.audio_transcript.done"
       then on_transcript_done w
       else ret true) in
    when shouldRelayEvent (emit (ws_send w (JSON_stringify event))).

(** *** Client messages *)

(** A throw of [send] is caught with the parse errors and only logged:
    the call is recorded as made. *)
Definition messageHandler (w : ws) (data : string) : M unit :=
  try_catch
    (let! event := lift (JSON_parse data) in
     let! armed := read isRAGActiveThisTurn in
     let! processing := read isProcessingRAG in
     let! type := lift (get event "type") in
     if (armed || processing) && is_str type "response.create"
     then ret tt
     else emit (realtime_send w type event))
    (fun _ => ret tt).

(** *** Retrieval *)

(** The loop over the results: the log line calls [Object.keys] on each
    document before it is pushed. *)
Fixpoint collect_documents (results documents : list value) : M (list value) :=
  match results with
  | [] => ret documents
  | document :: rest =>
      lift (object_keys document) ;;
      collect_documents rest (documents ++ [document])
  end.

Definition performRAGSearch (search : outcome (list value)) (query : string) : M (list value) :=
  try_catch
    (emit (search_call query 2) ;;
     let! results := lift search in
     collect_documents results [])
    (fun _ => ret []).

(** [doc.content || doc.text || JSON.stringify(doc)] *)
Definition document_content (doc : value) : outcome value :=
  match get doc "content" with
  | Thrown e => Thrown e
  | Done c =>
      if truthy c then Done c
      else match get doc "text" with
           | Thrown e => Thrown e
           | Done t => Done (or_else t (VStr (JSON_stringify doc)))
           end
  end.

(** The body of the [map] over the documents: the content is cut to 300
    and labelled with [i + 1]. *)
Definition document_entry (i : nat) (doc : value) : outcome string :=
  match document_content doc with
  | Thrown e => Thrown e
  | Done content =>
      match call_substring0 content 300 with
      | Thrown e => Thrown e
      | Done shortContent => Done (document_label i shortContent)
      end
  end.

(** [searchResults.map((doc, i) => ...)], from index [i] on. *)
Fixpoint map_documents (i : nat) (docs : list value) : outcome (list string) :=
  match docs with
  | [] => Done []
  | doc :: rest =>
      match document_entry i doc with
      | Thrown e => Thrown e
      | Done entry =>
          match map_documents (S i) rest with
          | Thrown e => Thrown e
          | Done entries => Done (entry :: entries)
          end
      end
  end.

Definition build_context (docs : list value) : outcome string :=
  match map_documents 0 docs with
  | Thrown e => Thrown e
  | Done entries => Done (join blank_line entries)
  end.

Definition completion_request (contextText userQuery : string) : request :=
  {| url := "https://api.openai.com/v1/chat/completions";
     method := "POST";
     headers := [("Authorization", "Bearer " +:+ OPENAI_API_KEY);
                 ("Content-Type", "application/json")];
     body := {| model := "gpt-3.5-turbo";
                messages := [("system", system_prompt contextText);
                             ("user", userQuery)];
                max_tokens := 200;
                temperature := 7 # 10 |} |}.

(** [client.realtime.send(eventName, data)] in [performRAGProcess]: the
    call is recorded, and it throws when the session connection does not
    take it. *)
Definition send (accepts : bool) (w : ws) (eventName : string) (data : value) : M unit :=
  emit (realtime_send w (VStr eventName) data) ;;
  if accepts then ret tt else throw Failure.

(** [setTimeout(() => client.realtime.send('response.create', data), 200)] *)
Definition speak_later (w : ws) (data : value) : M unit :=
  emit (timer_send 200 w (VStr "response.create") data).

(** [aiData.choices[0].message.content], after the test on [choices]. *)
Definition first_choice_content (aiData : value) : outcome value :=
  match get aiData "choices" with
  | Thrown e => Thrown e
  | Done choices =>
      if negb (truthy choices) then Thrown (Error "No AI response received")
      else
        match get choices "length" with
        | Thrown e => Thrown e
        | Done len =>
            if is_num len 0 then Thrown (Error "No AI response received")
            else
              match get_index choices 0 with
              | Thrown e => Thrown e
              | Done choice =>
                  match get choice "message" with
                  | Thrown e => Thrown e
                  | Done msg => get msg "content"
                  end
              end
        end
  end.

Definition status_error (st : Z) : exn :=
  Error ("AI API failed: " +:+ NilZero.string_of_int (Z.to_int st)).

(** The body of [performRAGProcess]. Everything it writes and sends
    happens after its last [await]. *)
Definition performRAGProcess (env : rag_env) (w : ws) (userQuery : string) : M unit :=
  try_catch
    (let! searchResults := performRAGSearch (search_results env) userQuery in
     match searchResults with
     | [] =>
         assign_processing false ;;
         send (send_accepts env) w "conversation.item.create"
              (VObj [("item", assistant_item (VStr no_results_text))]) ;;
         speak_later w (VObj [("response", audio_response)])
     | _ :: _ =>
         let! contextText := lift (build_context searchResults) in
         emit (fetch_call (completion_request contextText userQuery)) ;;
         let! aiResponse := lift (fetch_result env) in
         (if negb (ok aiResponse)
          then (let! _ := lift (text aiResponse) in
                throw (status_error (status aiResponse)))
          else ret tt) ;;
         let! aiData := lift (json aiResponse) in
         let! responseText := lift (first_choice_content aiData) in
         assign_processing false ;;
         send (send_accepts env) w "conversation.item.create"
              (VObj [("type", VStr "conversation.item.create");
                     ("item", assistant_item responseText)]) ;;
         speak_later w (VObj [("type", VStr "response.create");
                              ("response", audio_response)])
     end)
    (fun _ =>
       assign_processing false ;;
       try_catch
         (send (send_accepts env) w "conversation.item.create"
               (VObj [("item", assistant_item (VStr error_text))]) ;;
          speak_later w (VObj [("response", audio_response)]))
         (fun _ => ret tt)).

(** What [performRAGSearch] returns for an outcome of the search: the
    documents, or nothing when the search fails or a document is
    [null]. *)
Definition documents_found (search : outcome (list value)) : list value :=
  match search with
  | Thrown _ => []
  | Done results => if existsb is_nullish results then [] else results
  end.

(** What [performRAGProcess] reads as [responseText] for an outcome of
    [fetch], or what is thrown on the way to it. *)
Definition answer_of (fetched : outcome response) : outcome value :=
  match fetched with
  | Thrown e => Thrown e
  | Done aiResponse =>
      if negb (ok aiResponse)
      then match text aiResponse with
           | Thrown e => Thrown e
           | Done _ => Thrown (status_error (status aiResponse))
           end
      else match json aiResponse with
           | Thrown e => Thrown e
           | Done aiData => first_choice_content aiData
           end
  end.


(** The two steps of putting words in the assistant's mouth. *)
Definition injection (w : ws) (item_message response_message : value) : list action :=
  [realtime_send w (VStr "conversation.item.create") item_message;
   timer_send 200 w (VStr "response.create") response_message].

(** *** The webhook *)

(** [const state = connectionStates.get(ws); if (state) state.ragMode = b] *)
Definition set_ragMode (b : bool) (w : ws) : M unit :=
  let! states := read connectionStates in
  match states !! w with
  | Some _ => write (set_connectionStates (<[w := {| ragMode := b |}]> states))
  | None => ret tt
  end.

(** The body of the loop of ['rag off']. *)
Definition rag_off (w : ws) : M unit :=
  set_ragMode false w ;;
  let! armed := read isRAGActiveThisTurn in
  let! processing := read isProcessingRAG in
  when (armed || processing)
    (write (set_isRAGActiveThisTurn false) ;;
     assign_processing false ;;
     write (set_userTranscriptForRAG "")).

Definition test_query (text : string) : string :=
  let q := trim (remove_rag_test text) in
  if String.eqb q "" then "test query" else q.

(** The commands of a chat message. The loops visit the tracked sockets;
    what they do to the store does not depend on the order. *)
Definition chat_command (search : outcome (list value)) (text : value) : M unit :=
  match text with
  | VStr t =>
      let lower := toLowerCase t in
      let! sockets := read wsConnections in
      if includes lower "rag on" then forEach (elements sockets) (set_ragMode true)
      else if includes lower "rag off" then forEach (elements sockets) rag_off
      else if includes lower "rag test"
           then (let! _ := performRAGSearch search (test_query t) in ret tt)
           else ret tt
  | _ => throw TypeError
  end.

(** [app.post('/webhook', ...)]. *)
Definition webhook (search : outcome (list value)) (req_body : value) : M unit :=
  try_catch
    (let! event := lift (get req_body "event") in
     let! data := lift (get req_body "data") in
     (if is_str event "participant_events.chat_message"
      then
        let! d1 := lift (get data "data") in
        let! d2 := lift (get d1 "data") in
        let! text := lift (get d2 "text") in
        let! sender := lift (get d1 "participant") in
        let! _ := lift (get sender "name") in
        chat_command search text
      else ret tt) ;;
     emit (res_status 200))
    (fun _ => emit (res_status 500)).

(** *** Connections *)

Definition set_session (w : ws) (se : Session) : M unit :=
  let! all := read sessions in
  write (set_sessions (<[w := se]> all)).

(** [wss.on("connection", ...)] up to the [await] of [client.connect()]. *)
Definition on_connection (w : ws) : M unit :=
  let! sockets := read wsConnections in
  write (set_wsConnections ({[w]} ∪ sockets)) ;;
  let! states := read connectionStates in
  write (set_connectionStates (<[w := {| ragMode := false |}]> states)) ;;
  set_session w {| isConnected := false; messageQueue := [] |} ;;
  emit (realtime_connect w).

(** [ws.on("message", ...)]. *)
Definition on_message (w : ws) (data : string) : M unit :=
  let! all := read sessions in
  match all !! w with
  | None => ret tt
  | Some se =>
      if negb (isConnected se)
      then set_session w {| isConnected := false; messageQueue := messageQueue se ++ [data] |}
      else messageHandler w data
  end.

(** [while (messageQueue.length) messageHandler(messageQueue.shift())],
    on the queue as it stands when the loop starts: the handler does not
    touch the queue. *)
Fixpoint drain (w : ws) (queue : list string) : M unit :=
  match queue with
  | [] => ret tt
  | data :: rest =>
      set_session w {| isConnected := true; messageQueue := rest |} ;;
      messageHandler w data ;;
      drain w rest
  end.

(** The continuation of [await client.connect()] when it resolves; it
    runs before any further event is delivered. *)
Definition on_connect_resolved (w : ws) : M unit :=
  let! all := read sessions in
  match all !! w with
  | None => ret tt
  | Some se =>
      set_session w {| isConnected := true; messageQueue := messageQueue se |} ;;
      drain w (messageQueue se)
  end.

Definition on_connect_rejected (w : ws) : M unit := emit (ws_close w).

(** [client.realtime.on("close", () => ws.close())]; the session
    connection is gone by then. *)
Definition on_realtime_close (w : ws) : M unit :=
  let! all := read sessions in
  match all !! w with
  | None => ret tt
  | Some se =>
      set_session w {| isConnected := false; messageQueue := messageQueue se |} ;;
      emit (ws_close w)
  end.

(** [ws.on("close", ...)]. *)
Definition on_close (w : ws) : M unit :=
  let! all := read sessions in
  match all !! w with
  | None => ret tt
  | Some se =>
      let! sockets := read wsConnections in
      write (set_wsConnections (sockets ∖ {[w]})) ;;
      let! states := read connectionStates in
      write (set_connectionStates (delete w states)) ;;
      emit (realtime_disconnect w) ;;
      set_session w {| isConnected := false; messageQueue := messageQueue se |}
  end.

(** *** The event loop *)

Fixpoint remove_first (x : ws * string) (l : list (ws * string)) : list (ws * string) :=
  match l with
  | [] => []
  | y :: rest => if decide (x = y) then rest else y :: remove_first x rest
  end.

(** A run of [performRAGProcess] that was started settles: its actions
    are listed here, and the [.catch] attached at the call site handles a
    rejection. *)
Definition on_rag_settled (w : ws) (userQuery : string) (env : rag_env) : M unit :=
  let! running := read inflight in
  if bool_decide ((w, userQuery) ∈ running)
  then
    write (set_inflight (remove_first (w, userQuery) running)) ;;
    try_catch (performRAGProcess env w userQuery)
              (fun _ => assign_processing false)
  else ret tt.

Definition handle (i : input) : M unit :=
  match i with
  | connection w => on_connection w
  | connect_resolved w => on_connect_resolved w
  | connect_rejected w => on_connect_rejected w
  | server_event w event => on_server_event w event
  | realtime_close w => on_realtime_close w
  | message w data => on_message w data
  | close w => on_close w
  | post_webhook req_body search => webhook search req_body
  | rag_settled w userQuery env => on_rag_settled w userQuery env
  end.

(** The process handles one input after the other, each to completion;
    an exception nobody catches ends it. *)
Definition run (inputs : list input) : M unit := forEach inputs handle.

End Server.
End Rag.

(** ** A wire format for the examples

    The theorems hold for any parser and printer. The examples use one in
    which the text of a message is the type of its event. *)

Definition demo_parse (data : string) : outcome value :=
  if String.eqb data "null" then Done VNull
  else if String.prefix "{" data then Thrown SyntaxError
  else Done (VObj [("type", VStr data)]).

Definition demo_stringify (v : value) : string := toString (get_opt v "type").

Definition ev (type : string) : value := VObj [("type", VStr type)].

Definition ev_text (type text : string) : value :=
  VObj [("type", VStr type); ("text", VStr text)].

Definition chat (text : string) : value :=
  VObj [("event", VStr "participant_events.chat_message");
        ("data", VObj [("data",
           VObj [("data", VObj [("text", VStr text)]);
                 ("participant", VObj [("name", VStr "host")])])])].

(** A store with one socket, number 0, tracked, connected and with RAG
    mode on. *)
Definition one_socket (processing armed : bool) (buffer : string) : Store :=
  {| isProcessingRAG := processing;
     userTranscriptForRAG := buffer;
     isRAGActiveThisTurn := armed;
     connectionStates := {[ 0%nat := {| ragMode := true |} ]};
     wsConnections := {[ 0%nat ]};
     sessions := {[ 0%nat := {| isConnected := true; messageQueue := [] |} ]};
     inflight := [] |}.

(** The first turn of a session: a client connects, RAG mode is switched
    on, the user asks a question and its transcript ends. The run started
    for it is in flight afterwards. *)
Definition first_turn : list input :=
  [connection 0;
   connect_resolved 0;
   post_webhook (chat "rag on") (Done []);
   server_event 0 (ev "input_audio_buffer.speech_started");
   server_event 0 (ev_text "response.audio_transcript.delta" "what is ");
   server_event 0 (ev_text "response.audio_transcript.delta" "the plan");
   server_event 0 (ev "response.audio_transcript.done")].


(** What holds of the store of the retrieval server at startup and, as
    shown below, after every input: the turn is not armed and processing
    at once; while the gate is shut a run is in flight; the sockets that
    have a state are the tracked ones. *)
Definition consistent (s : Store) : Prop :=
  isRAGActiveThisTurn s && isProcessingRAG s = false
  /\ (isProcessingRAG s = true -> inflight s <> [])
  /\ dom (connectionStates s) = wsConnections s.

(** The turn of a store: the two flags and the buffer. *)
Definition turn_of (s : Store) : bool * bool * string :=
  (isRAGActiveThisTurn s, isProcessingRAG s, userTranscriptForRAG s).

(** A request body in which the webhook finds a chat message: the event
    name, and the text and the sender at the places where it reads them. *)
Definition is_chat_message (req_body text sender : value) : Prop :=
  exists data d1 d2,
    get req_body "event" = Done (VStr "participant_events.chat_message")
    /\ get req_body "data" = Done data
    /\ get data "data" = Done d1
    /\ get d1 "data" = Done d2
    /\ get d2 "text" = Done text
    /\ get d1 "participant" = Done sender.

(** What the relay of provider events may do for an event on socket [w]:
    send that event to that socket, write the gate, start a run for that
    socket. *)
Definition relay_action (w : ws) (payload : string) (a : action) : Prop :=
  match a with
  | ws_send w' data => w' = w /\ data = payload
  | assign_isProcessingRAG _ => True
  | call_performRAGProcess w' _ => w' = w
  | _ => False
  end.

(** What the plain relay makes of a client message. *)
Definition forwarded (parse : string -> outcome value) (w : ws) (data : string) : list action :=
  match parse data with
  | Thrown _ => []
  | Done event =>
      match get event "type" with
      | Thrown _ => []
      | Done type => [realtime_send w type event]
      end
  end.

(** The primitive values: those whose conversion to a string, as in a
    template literal or under [+=], cannot throw. The conversion of an
    object or an array calls its [toString], which a parsed body may have
    replaced by a value that is no function. *)
Definition is_primitive (v : value) : bool :=
  match v with
  | VObj _ | VArr _ => false
  | _ => true
  end.

(** A store with two tracked sockets, 0 connected and 1 still
    connecting, both with RAG mode off, and the turn idle. *)
Definition two_sockets : Store :=
  {| isProcessingRAG := false;
     userTranscriptForRAG := "";
     isRAGActiveThisTurn := false;
     connectionStates := {[ 0%nat := {| ragMode := false |}; 1%nat := {| ragMode := false |} ]};
     wsConnections := {[ 0%nat; 1%nat ]};
     sessions := {[ 0%nat := {| isConnected := true; messageQueue := [] |};
                    1%nat := {| isConnected := false; messageQueue := [] |} ]};
     inflight := [] |}.

(** A second turn after the first was cancelled with [rag off]: two runs
    are in flight. *)
Definition second_turn : list input :=
  first_turn ++
  [post_webhook (chat "rag off") (Done []);
   post_webhook (chat "rag on") (Done []);
   server_event 0 (ev "input_audio_buffer.speech_started");
   server_event 0 (ev_text "response.audio_transcript.delta" "and then");
   server_event 0 (ev "response.audio_transcript.done")].


(** ** Properties *)

Local Open Scope js_scope.

Ltac unfold_js :=
  unfold when, assign_processing, bind, ret, throw, try_catch, lift, read, write, emit in *.


Ltac open_store s :=
  destruct s as [processing buffer armed states sockets sess running];
  simpl in *; subst.

Lemma is_str_true (v : value) (lit : string) :
  is_str v lit = true -> v = VStr lit.
Proof.
  destruct v; simpl; try discriminate.
  intros H. apply String.eqb_eq in H. congruence.
Qed.

Lemma forEach_app {A} (l1 l2 : list A) (body : A -> M unit) (s : Store) :
  forEach (l1 ++ l2) body s = (forEach l1 body ;; forEach l2 body) s.
Proof.
  revert s. induction l1 as [|x l1 IH]; intros s; simpl.
  - unfold bind, ret. simpl. destruct (forEach l2 body s) as [[r s'] t]. reflexivity.
  - unfold bind in *. destruct (body x s) as [[[[]|e] s1] t1]; [|reflexivity].
    rewrite IH. destruct (forEach l1 body s1) as [[[[]|e] s2] t2]; [|reflexivity].
    destruct (forEach l2 body s2) as [[r s3] t3]. by rewrite app_assoc.
Qed.

Section Properties.

Variable JSON_parse : string -> outcome value.
Variable JSON_stringify : value -> string.
Variable OPENAI_API_KEY : string.

Abbreviation on_server_event := (Rag.on_server_event JSON_stringify).
Abbreviation messageHandler := (Rag.messageHandler JSON_parse).
Abbreviation performRAGProcess := (Rag.performRAGProcess JSON_stringify OPENAI_API_KEY).
Abbreviation run := (Rag.run JSON_parse JSON_stringify OPENAI_API_KEY).
Abbreviation plain_on_server_event := (Plain.on_server_event JSON_stringify).

(** While processing, an event of a response type or an assistant item
    leaves no trace and no change. *)
Lemma blocked_while_processing (w : ws) (event : value) (type : string) (s : Store) :
  isProcessingRAG s = true ->
  get event "type" = Done (VStr type) ->
  Rag.response_construction event type = true ->
  on_server_event w event s = (Done tt, s, []).
Proof.
  intros Hp Ht Hc. open_store s.
  unfold Rag.on_server_event, Rag.is_assistant_response. unfold_js. simpl.
  rewrite Ht, Hc. reflexivity.
Qed.

Lemma response_type_not (type lit : string) :
  startsWith type "response." = false ->
  startsWith lit "response." = true ->
  is_str (VStr type) lit = false.
Proof.
  intros Hs Hl. destruct (is_str (VStr type) lit) eqn:E; [|done].
  apply is_str_true in E. injection E as ->. congruence.
Qed.

(** While processing, any other event is relayed; the gate stays shut. *)
Lemma relayed_while_processing (w : ws) (event : value) (type : string) (s : Store) :
  isProcessingRAG s = true ->
  get event "type" = Done (VStr type) ->
  Rag.response_construction event type = false ->
  result_of (on_server_event w event s) = Done tt
  /\ trace_of (on_server_event w event s) = [ws_send w (JSON_stringify event)]
  /\ isProcessingRAG (store_of (on_server_event w event s)) = true.
Proof.
  intros Hp Ht Hc. open_store s.
  pose proof Hc as Hc'. apply orb_false_iff in Hc' as [Hs _].
  pose proof (response_type_not type "response.audio_transcript.delta" Hs eq_refl) as Hd1.
  pose proof (response_type_not type "response.audio_transcript.done" Hs eq_refl) as Hd2.
  unfold Rag.on_server_event, Rag.is_assistant_response, Rag.on_speech_started.
  unfold_js. simpl. rewrite Ht, Hc. simpl.
  simpl in Hd1, Hd2.
  destruct (type =? "input_audio_buffer.speech_started")%string; simpl;
    rewrite ?andb_false_r; simpl.
  - done.
  - rewrite Hd1, Hd2, !andb_false_r. simpl. done.
Qed.

(** C1. While [isProcessingRAG] is true, provider events whose type
    indicates assistant response construction (a type starting with
    [response.], or [conversation.item.created] with an assistant item)
    are not relayed, however many of them arrive and on whichever socket:
    nothing is sent and the store is unchanged. An event of any other type
    arriving while processing is relayed to the client as it is. *)
Theorem C1_processing_suppresses_response_events (s : Store) :
  isProcessingRAG s = true ->
  (forall events : list (ws * value),
      Forall (fun we => exists type,
                  get we.2 "type" = Done (VStr type)
                  /\ Rag.response_construction we.2 type = true) events ->
      forEach events (fun we => on_server_event we.1 we.2) s = (Done tt, s, []))
  /\ (forall (w : ws) (event : value) (type : string),
        get event "type" = Done (VStr type) ->
        Rag.response_construction event type = false ->
        result_of (on_server_event w event s) = Done tt
        /\ trace_of (on_server_event w event s) = [ws_send w (JSON_stringify event)]
        /\ isProcessingRAG (store_of (on_server_event w event s)) = true).
Proof.
  intros Hp. split.
  - intros events Hall. induction Hall as [|[w e] events [type [Ht Hc]] _ IH]; [reflexivity|].
    simpl in *. unfold bind.
    rewrite (blocked_while_processing w e type s Hp Ht Hc). by rewrite IH.
  - intros w event type Ht Hc. by apply (relayed_while_processing w event type).
Qed.

(** C2. A client message that parses to an event whose type can be read
    is dropped when it is a [response.create] and the turn is armed or
    processing; in every other state and for every other type the parsed
    event is passed to the session connection under its own type. The
    store is never changed. *)
Theorem C2_client_response_create_gate
    (w : ws) (data : string) (event type : value) (s : Store) :
  JSON_parse data = Done event ->
  get event "type" = Done type ->
  messageHandler w data s =
    if (isRAGActiveThisTurn s || isProcessingRAG s) && is_str type "response.create"
    then (Done tt, s, [])
    else (Done tt, s, [realtime_send w type event]).
Proof.
  intros Hparse Htype.
  unfold Rag.messageHandler. unfold_js. rewrite Hparse, Htype.
  destruct ((isRAGActiveThisTurn s || isProcessingRAG s) && is_str type "response.create");
    reflexivity.
Qed.



(** A speech start outside processing: the buffer is emptied, the turn is
    armed when the socket has RAG mode on, the event is relayed. *)
Lemma speech_started_step (w : ws) (event : value) (s : Store) :
  isProcessingRAG s = false ->
  get event "type" = Done (VStr "input_audio_buffer.speech_started") ->
  on_server_event w event s =
    (Done tt,
     set_isRAGActiveThisTurn (Rag.ragMode_is_true w s) (set_userTranscriptForRAG "" s),
     [ws_send w (JSON_stringify event)]).
Proof.
  intros Hp Ht. open_store s.
  unfold Rag.on_server_event, Rag.on_speech_started. unfold_js. simpl.
  rewrite Ht. simpl. unfold Rag.ragMode_is_true. simpl.
  destruct (states !! w) as [[[]]|]; reflexivity.
Qed.





Lemma collect_documents_spec (results documents : list value) (s : Store) :
  Rag.collect_documents results documents s =
    if existsb is_nullish results
    then (Thrown TypeError, s, [])
    else (Done (documents ++ results), s, []).
Proof.
  revert documents. induction results as [|d results IH]; intros documents; simpl.
  - by rewrite app_nil_r.
  - unfold bind, lift, object_keys. destruct (is_nullish d); simpl; [reflexivity|].
    rewrite IH. destruct (existsb is_nullish results); [reflexivity|].
    by rewrite <- app_assoc.
Qed.

Lemma performRAGSearch_spec (search : outcome (list value)) (query : string) (s : Store) :
  Rag.performRAGSearch search query s =
    (Done (Rag.documents_found search), s, [search_call query 2]).
Proof.
  unfold Rag.performRAGSearch, Rag.documents_found. unfold_js.
  destruct search as [results|e]; simpl; [|reflexivity].
  rewrite collect_documents_spec.
  destruct (existsb is_nullish results); reflexivity.
Qed.

(** Every path of [performRAGProcess], by what the outside answers. *)
Lemma performRAGProcess_paths (env : rag_env) (w : ws) (userQuery : string) (s : Store) :
  let item text := VObj [("item", Rag.assistant_item text)] in
  let speak := VObj [("response", Rag.audio_response)] in
  let create := realtime_send w (VStr "conversation.item.create") in
  let later := timer_send 200 w (VStr "response.create") in
  let fallback :=
    [assign_isProcessingRAG false; create (item (VStr Rag.error_text))]
    ++ (if send_accepts env then [later speak] else []) in
  performRAGProcess env w userQuery s =
    (Done tt, set_isProcessingRAG false s,
     search_call userQuery 2 ::
     match Rag.documents_found (search_results env) with
     | [] =>
         [assign_isProcessingRAG false; create (item (VStr Rag.no_results_text))]
         ++ (if send_accepts env then [later speak] else fallback)
     | doc :: docs =>
         match Rag.build_context JSON_stringify (doc :: docs) with
         | Thrown _ => fallback
         | Done contextText =>
             fetch_call (Rag.completion_request OPENAI_API_KEY contextText userQuery) ::
             match Rag.answer_of (fetch_result env) with
             | Thrown _ => fallback
             | Done responseText =>
                 [assign_isProcessingRAG false;
                  create (VObj [("type", VStr "conversation.item.create");
                                ("item", Rag.assistant_item responseText)])]
                 ++ (if send_accepts env
                     then [later (VObj [("type", VStr "response.create");
                                        ("response", Rag.audio_response)])]
                     else fallback)
             end
         end
     end).
Proof.
  intros item speak create later fallback. subst item speak create later fallback.
  unfold Rag.performRAGProcess, Rag.send, Rag.speak_later, Rag.answer_of.
  unfold_js. rewrite performRAGSearch_spec.
  destruct (Rag.documents_found (search_results env)) as [|doc docs].
  - destruct (send_accepts env); destruct s; reflexivity.
  - destruct (Rag.build_context JSON_stringify (doc :: docs)) as [contextText|e].
    2: { destruct (send_accepts env); destruct s; reflexivity. }
    destruct (fetch_result env) as [aiResponse|e].
    2: { destruct (send_accepts env); destruct s; reflexivity. }
    simpl. destruct (ok aiResponse); simpl.
    + destruct (json aiResponse) as [aiData|e]; simpl.
      2: { destruct (send_accepts env); destruct s; reflexivity. }
      destruct (Rag.first_choice_content aiData) as [responseText|e]; simpl;
        destruct (send_accepts env); destruct s; reflexivity.
    + destruct (text aiResponse) as [errorText|e]; simpl;
        destruct (send_accepts env); destruct s; reflexivity.
Qed.

Lemma get_nullish (v : value) (k : string) :
  is_nullish v = true -> get v k = Thrown TypeError.
Proof. by destruct v. Qed.














Lemma get_not_nullish (v : value) (k : string) :
  is_nullish v = false -> exists x, get v k = Done x.
Proof. destruct v; simpl; intros H; try discriminate; eauto. Qed.



(** The sockets' states after one round of ['rag off'] on [w]. *)
Lemma rag_off_spec (w : ws) (s : Store) :
  let states' :=
    match connectionStates s !! w with
    | Some _ => <[w := {| ragMode := false |}]> (connectionStates s)
    | None => connectionStates s
    end in
  Rag.rag_off w s =
    if isRAGActiveThisTurn s || isProcessingRAG s
    then (Done tt,
          set_userTranscriptForRAG ""
            (set_isProcessingRAG false
               (set_isRAGActiveThisTurn false (set_connectionStates states' s))),
          [assign_isProcessingRAG false])
    else (Done tt, set_connectionStates states' s, []).
Proof.
  destruct s as [processing buffer armed states sockets sess running]. simpl.
  unfold Rag.rag_off, Rag.set_ragMode. unfold_js. simpl.
  destruct (states !! w); simpl; destruct (armed || processing); reflexivity.
Qed.

Lemma ragMode_off_kept (w w' : ws) (s : Store) :
  Rag.ragMode_is_true w' s = false \/ w' = w ->
  match (match connectionStates s !! w with
         | Some _ => <[w := {| ragMode := false |}]> (connectionStates s)
         | None => connectionStates s
         end) !! w' with
  | Some c => ragMode c
  | None => false
  end = false.
Proof.
  unfold Rag.ragMode_is_true. intros H.
  destruct (connectionStates s !! w) eqn:Ew.
  - destruct (decide (w = w')) as [->|Hne].
    + by rewrite lookup_insert_eq.
    + rewrite lookup_insert_ne by done. destruct H as [H| ->]; done.
  - destruct H as [H| ->]; [done|]. by rewrite Ew.
Qed.

(** The loop of ['rag off'] once the turn is idle: only the modes
    change. *)
Lemma rag_off_loop_idle (l : list ws) (s : Store) :
  isRAGActiveThisTurn s = false ->
  isProcessingRAG s = false ->
  exists s',
    forEach l Rag.rag_off s = (Done tt, s', [])
    /\ isRAGActiveThisTurn s' = false
    /\ isProcessingRAG s' = false
    /\ userTranscriptForRAG s' = userTranscriptForRAG s
    /\ inflight s' = inflight s
    /\ wsConnections s' = wsConnections s
    /\ (forall w, Rag.ragMode_is_true w s = false \/ w ∈ l -> Rag.ragMode_is_true w s' = false).
Proof.
  revert s. induction l as [|w l IH]; intros s Ha Hp.
  - exists s. simpl. repeat split; try done. intros w [H|H]; [done|]. by apply elem_of_nil in H.
  - simpl. unfold bind. rewrite rag_off_spec, Ha, Hp. simpl.
    match goal with |- context [forEach l _ ?s1] => destruct (IH s1) as (s' & Hrun & Ha' & Hp' & Hb' & Hi' & Hc' & Hm') end.
    { by destruct s. } { by destruct s. }
    rewrite Hrun. exists s'. repeat split; try done.
    intros w' H. apply Hm'.
    destruct (decide (w' ∈ l)) as [Hin|Hnin]; [by right|left].
    unfold Rag.ragMode_is_true. simpl. apply ragMode_off_kept.
    destruct H as [H|H]; [by left|].
    apply elem_of_cons in H as [->|H]; [by right|done].
Qed.

(** The loop of ['rag off'] over at least one socket while the turn is
    armed or processing: the first round resets the turn. *)
Lemma rag_off_loop_resets (l : list ws) (s : Store) :
  l <> [] ->
  isRAGActiveThisTurn s || isProcessingRAG s = true ->
  exists s',
    forEach l Rag.rag_off s = (Done tt, s', [assign_isProcessingRAG false])
    /\ isRAGActiveThisTurn s' = false
    /\ isProcessingRAG s' = false
    /\ userTranscriptForRAG s' = ""
    /\ inflight s' = inflight s
    /\ wsConnections s' = wsConnections s
    /\ (forall w, w ∈ l -> Rag.ragMode_is_true w s' = false).
Proof.
  intros Hl Hflag. destruct l as [|w l]; [done|].
  simpl. unfold bind. rewrite rag_off_spec, Hflag.
  match goal with |- context [forEach l _ ?s1] =>
    destruct (rag_off_loop_idle l s1) as (s' & Hrun & Ha' & Hp' & Hb' & Hi' & Hc' & Hm') end.
  { by destruct s. } { by destruct s. }
  rewrite Hrun. exists s'. repeat split; try done.
  intros w' H. apply Hm'.
  destruct (decide (w' ∈ l)) as [Hin|Hnin]; [by right|left].
  unfold Rag.ragMode_is_true. simpl. apply ragMode_off_kept.
  apply elem_of_cons in H as [->|H]; [by right|done].
Qed.

(** A run in flight settles: it never rejects, so the [.catch] of the
    call site stays idle, and the gate is open afterwards. *)
Lemma rag_settled_spec (w : ws) (userQuery : string) (env : rag_env) (s : Store) :
  (w, userQuery) ∈ inflight s ->
  Rag.on_rag_settled JSON_stringify OPENAI_API_KEY w userQuery env s =
    (Done tt,
     set_isProcessingRAG false
       (set_inflight (Rag.remove_first (w, userQuery) (inflight s)) s),
     trace_of (performRAGProcess env w userQuery s)).
Proof.
  intros Hin. unfold Rag.on_rag_settled. unfold_js.
  rewrite bool_decide_eq_true_2 by done.
  rewrite !performRAGProcess_paths. reflexivity.
Qed.


(** The message handler returns, leaves the store alone, and looks only
    at the two flags of the turn. *)
Lemma messageHandler_pure (w : ws) (data : string) (s : Store) :
  messageHandler w data s = (Done tt, s, trace_of (messageHandler w data s)).
Proof.
  unfold Rag.messageHandler. unfold_js.
  destruct (JSON_parse data) as [event|e]; simpl; [|reflexivity].
  destruct (get event "type") as [type|e]; simpl; [|reflexivity].
  destruct ((isRAGActiveThisTurn s || isProcessingRAG s) && is_str type "response.create");
    reflexivity.
Qed.


(** Messages that arrive before the session connection is ready go to
    the end of the queue; nothing is sent. *)
Lemma messages_queued (w : ws) (l queue : list string) (s : Store) :
  sessions s !! w = Some {| isConnected := false; messageQueue := queue |} ->
  exists s',
    run (map (message w) l) s = (Done tt, s', [])
    /\ isRAGActiveThisTurn s' = isRAGActiveThisTurn s
    /\ isProcessingRAG s' = isProcessingRAG s
    /\ sessions s' !! w = Some {| isConnected := false; messageQueue := queue ++ l |}.
Proof.
  revert queue s. induction l as [|data l IH]; intros queue s Hs.
  - exists s. rewrite app_nil_r. done.
  - unfold Rag.run in *. simpl. unfold bind at 1.
    unfold Rag.on_message, Rag.set_session. unfold_js. rewrite Hs. simpl.
    match goal with |- context [forEach _ _ ?s1] =>
      destruct (IH (queue ++ [data]) s1) as (s' & Hrun & Ha & Hp & Hq) end.
    { destruct s; simpl. by rewrite lookup_insert_eq. }
    rewrite Hrun. exists s'. rewrite <- app_assoc in Hq.
    repeat split; done.
Qed.





(** A speech start in any state of the turn: it is never blocked, and it
    empties the buffer. *)
Lemma speech_started_any (w : ws) (event : value) (s : Store) :
  get event "type" = Done (VStr "input_audio_buffer.speech_started") ->
  on_server_event w event s =
    (Done tt,
     set_isRAGActiveThisTurn (Rag.ragMode_is_true w s && negb (isProcessingRAG s))
       (set_userTranscriptForRAG "" s),
     [ws_send w (JSON_stringify event)]).
Proof.
  intros Ht. destruct (isProcessingRAG s) eqn:Hp.
  - open_store s.
    unfold Rag.on_server_event, Rag.is_assistant_response, Rag.on_speech_started.
    unfold_js. simpl. rewrite Ht. simpl. unfold Rag.ragMode_is_true. simpl.
    rewrite !andb_false_r. reflexivity.
  - rewrite speech_started_step by done. by rewrite andb_true_r.
Qed.


End Properties.

(** ** The claims at concrete inputs *)

Lemma C1_witness :
  isProcessingRAG (one_socket true false "") = true
  /\ forEach [(0%nat, ev "response.created");
              (1%nat, ev_text "response.audio_transcript.delta" "hello");
              (0%nat, ev "response.done")]
             (fun we => Rag.on_server_event demo_stringify we.1 we.2)
             (one_socket true false "")
     = (Done tt, one_socket true false "", [])
  /\ trace_of (Rag.on_server_event demo_stringify 0
                 (ev "input_audio_buffer.speech_stopped") (one_socket true false ""))
     = [ws_send 0 "input_audio_buffer.speech_stopped"].
Proof.
  split; [reflexivity|].
  destruct (C1_processing_suppresses_response_events demo_stringify
              (one_socket true false "") eq_refl) as [Hblock Hrelay].
  split.
  - apply Hblock. repeat constructor; simpl; eexists; split; reflexivity.
  - apply (Hrelay 0%nat (ev "input_audio_buffer.speech_stopped")
             "input_audio_buffer.speech_stopped"); reflexivity.
Defined.

Lemma C2_witness :
  demo_parse "response.create" = Done (ev "response.create")
  /\ get (ev "response.create") "type" = Done (VStr "response.create")
  /\ Rag.messageHandler demo_parse 0 "response.create" (one_socket false true "")
     = (Done tt, one_socket false true "", [])
  /\ Rag.messageHandler demo_parse 0 "response.create" (one_socket false false "")
     = (Done tt, one_socket false false "",
        [realtime_send 0 (VStr "response.create") (ev "response.create")]).
Proof.
  split; [reflexivity|]. split; [reflexivity|]. split.
  - apply (C2_client_response_create_gate demo_parse 0 "response.create"
             (ev "response.create") (VStr "response.create") (one_socket false true ""));
      reflexivity.
  - apply (C2_client_response_create_gate demo_parse 0 "response.create"
             (ev "response.create") (VStr "response.create") (one_socket false false ""));
      reflexivity.
Defined.













(** ** Further properties of the two servers *)

Ltac split_cases :=
  repeat (simplify_eq/=;
          match goal with
          | |- context [match ?x with _ => _ end] => destruct x eqn:?
          | H : context [match ?x with _ => _ end] |- _ => destruct x eqn:?
          end);
  simplify_eq/=.

(** A property of the store that every pass of a loop body keeps is kept
    by the loop, also when a pass throws. *)
Lemma forEach_keeps {A} (P : Store -> Prop) (body : A -> M unit) (l : list A) :
  (forall x s, P s -> P (store_of (body x s))) ->
  forall s, P s -> P (store_of (forEach l body s)).
Proof.
  intros Hbody. induction l as [|x l IH]; intros s Hs; simpl; [exact Hs|].
  unfold bind. specialize (Hbody x s Hs).
  destruct (body x s) as [[[[]|e] s1] t1]; unfold store_of in *; simpl in *; [|exact Hbody].
  specialize (IH s1 Hbody).
  destruct (forEach l body s1) as [[r s2] t2]. exact IH.
Qed.

Lemma union_member (w : ws) (c : gset ws) : w ∈ c -> {[w]} ∪ c = c.
Proof.
  intros Hw. apply subseteq_union_1_L. by apply singleton_subseteq_l.
Qed.

Section Coverage.

Variable JSON_parse : string -> outcome value.
Variable JSON_stringify : value -> string.
Variable OPENAI_API_KEY : string.

Abbreviation handle := (Rag.handle JSON_parse JSON_stringify OPENAI_API_KEY).
Abbreviation run := (Rag.run JSON_parse JSON_stringify OPENAI_API_KEY).

Lemma server_event_consistent (w : ws) (event : value) (s : Store) :
  consistent s -> consistent (store_of (Rag.on_server_event JSON_stringify w event s)).
Proof.
  destruct s as [processing buffer armed states sockets sess running].
  unfold consistent. simpl. intros (Hflags & Hrun & Hdom).
  unfold Rag.on_server_event, Rag.on_speech_started, Rag.on_transcript_delta,
    Rag.on_transcript_done, store_of.
  unfold_js. simpl. split_cases; repeat split; try done;
    try (intros _; by destruct running);
    try (by rewrite andb_false_r);
    try (rewrite andb_false_r in *; done).
Qed.

(** The message handler and the loop over the queue change nothing but
    the queue. *)
Lemma drain_frame (w : ws) (queue : list string) (s : Store) :
  exists m, store_of (Rag.drain JSON_parse w queue s) = set_sessions m s.
Proof.
  revert s. induction queue as [|data rest IH]; intros s.
  - exists (sessions s). by destruct s.
  - simpl. unfold bind at 1. unfold Rag.set_session at 1. unfold_js. simpl.
    match goal with |- context [Rag.messageHandler _ w data ?s1] =>
      rewrite (messageHandler_pure JSON_parse w data s1);
      destruct (IH s1) as [m Hm] end.
    exists m. unfold store_of in *.
    destruct (Rag.drain JSON_parse w rest _) as [[r s2] t2]. simpl in *.
    rewrite Hm. by destruct s.
Qed.

Lemma set_sessions_consistent (m : gmap ws Session) (s : Store) :
  consistent s -> consistent (set_sessions m s).
Proof. by destruct s. Qed.

Lemma ragMode_loop_consistent (b : bool) (l : list ws) (s : Store) :
  consistent s -> consistent (store_of (forEach l (Rag.set_ragMode b) s)).
Proof.
  apply forEach_keeps. clear s. intros w s.
  destruct s as [processing buffer armed states sockets sess running].
  unfold consistent, Rag.set_ragMode, store_of. unfold_js. simpl.
  intros (Hflags & Hrun & Hdom).
  destruct (states !! w) eqn:Hw; simpl; [|done].
  repeat split; try done. rewrite dom_insert_L, Hdom.
  apply union_member. rewrite <- Hdom. by eapply elem_of_dom_2.
Qed.

Lemma rag_off_loop_consistent (l : list ws) (s : Store) :
  consistent s -> consistent (store_of (forEach l Rag.rag_off s)).
Proof.
  apply forEach_keeps. clear s. intros w s. rewrite rag_off_spec.
  destruct s as [processing buffer armed states sockets sess running].
  unfold consistent, store_of. simpl. intros (Hflags & Hrun & Hdom).
  assert (Hd : dom (match states !! w with
                    | Some _ => <[w := {| ragMode := false |}]> states
                    | None => states
                    end) = sockets).
  { destruct (states !! w) eqn:Hw; [|done].
    rewrite dom_insert_L, Hdom. apply union_member. rewrite <- Hdom.
    by eapply elem_of_dom_2. }
  destruct (armed || processing); simpl; repeat split; done.
Qed.

(** Where the store of the webhook comes from: nothing happened, or one
    of the two loops ran. *)
Lemma webhook_store (search : outcome (list value)) (req_body : value) (s : Store) :
  let s' := store_of (Rag.webhook search req_body s) in
  s' = s
  \/ s' = store_of (forEach (elements (wsConnections s)) (Rag.set_ragMode true) s)
  \/ s' = store_of (forEach (elements (wsConnections s)) Rag.rag_off s).
Proof.
  unfold Rag.webhook, Rag.chat_command, store_of. unfold_js.
  destruct (get req_body "event") as [event|e]; simpl; [|by left].
  destruct (get req_body "data") as [data|e]; simpl; [|by left].
  destruct (is_str event "participant_events.chat_message"); simpl; [|by left].
  destruct (get data "data") as [d1|e]; simpl; [|by left].
  destruct (get d1 "data") as [d2|e]; simpl; [|by left].
  destruct (get d2 "text") as [text|e]; simpl; [|by left].
  destruct (get d1 "participant") as [sender|e]; simpl; [|by left].
  destruct (get sender "name") as [name|e]; simpl; [|by left].
  destruct text as [| | | |t| |]; simpl; try by left.
  destruct (includes (toLowerCase t) "rag on").
  { right; left. destruct (forEach _ _ s) as [[[[]|e] s1] t1]; reflexivity. }
  destruct (includes (toLowerCase t) "rag off").
  { right; right. destruct (forEach _ _ s) as [[[[]|e] s1] t1]; reflexivity. }
  destruct (includes (toLowerCase t) "rag test"); [|by left].
  rewrite performRAGSearch_spec. by left.
Qed.

Lemma handle_consistent (i : input) (s : Store) :
  consistent s -> consistent (store_of (handle i s)).
Proof.
  intros Hs. destruct i as [w|w|w|w event|w|w data|w|req_body search|w userQuery env]; simpl.
  - destruct s as [processing buffer armed states sockets sess running].
    destruct Hs as (Hflags & Hrun & Hdom). simpl in *.
    unfold consistent, Rag.on_connection, Rag.set_session, store_of. unfold_js. simpl.
    repeat split; try done. rewrite dom_insert_L, Hdom. done.
  - unfold Rag.on_connect_resolved, Rag.set_session. unfold_js.
    destruct (sessions s !! w) as [se|]; simpl; [|done].
    match goal with |- context [Rag.drain _ w ?q ?s1] =>
      destruct (drain_frame w q s1) as [m Hm];
      unfold store_of in *; destruct (Rag.drain JSON_parse w q s1) as [[r s2] t2] end.
    simpl in *. subst s2. by destruct s.
  - done.
  - by apply server_event_consistent.
  - unfold Rag.on_realtime_close, Rag.set_session. unfold_js.
    destruct (sessions s !! w) as [se|]; simpl; [|done]. by destruct s.
  - unfold Rag.on_message, Rag.set_session. unfold_js.
    destruct (sessions s !! w) as [se|]; simpl; [|done].
    destruct (isConnected se); simpl.
    + by rewrite messageHandler_pure.
    + by destruct s.
  - unfold Rag.on_close, Rag.set_session. unfold_js.
    destruct (sessions s !! w) as [se|]; simpl; [|done].
    destruct s as [processing buffer armed states sockets sess running].
    destruct Hs as (Hflags & Hrun & Hdom). unfold consistent, store_of. simpl in *.
    repeat split; try done. by rewrite dom_delete_L, Hdom.
  - destruct (webhook_store search req_body s) as [H|[H|H]]; rewrite H.
    + done.
    + by apply ragMode_loop_consistent.
    + by apply rag_off_loop_consistent.
  - unfold Rag.on_rag_settled. unfold_js.
    destruct (bool_decide ((w, userQuery) ∈ inflight s)); simpl; [|done].
    rewrite performRAGProcess_paths. unfold store_of. simpl.
    destruct s as [processing buffer armed states sockets sess running].
    destruct Hs as (Hflags & Hrun & Hdom). unfold consistent. simpl in *.
    repeat split; try done. by rewrite andb_false_r.
Qed.

Lemma run_consistent (inputs : list input) (s : Store) :
  consistent s -> consistent (store_of (run inputs s)).
Proof.
  unfold Rag.run. apply forEach_keeps. intros i s'. apply handle_consistent.
Qed.

Lemma startup_consistent : consistent startup.
Proof.
  split; [reflexivity|]. split; [intros H; discriminate H|]. apply dom_empty_L.
Qed.


(** X1. [performRAGSearch] makes one search call for two results and
    never throws: a search that is rejected, and one that returns a
    document that is [null] or [undefined], both give the empty list;
    otherwise the documents come back in the order of the results. The
    store is untouched, and the function of the plain server is the
    same. *)
Theorem X1_search_errors_become_empty_results
    (search : outcome (list value)) (query : string) (s : Store) :
  let r := Rag.performRAGSearch search query s in
  store_of r = s
  /\ trace_of r = [search_call query 2]
  /\ (forall e, search = Thrown e -> result_of r = Done [])
  /\ (forall results,
        search = Done results -> existsb is_nullish results = true ->
        result_of r = Done [])
  /\ (forall results,
        search = Done results -> existsb is_nullish results = false ->
        result_of r = Done results)
  /\ Plain.performRAGSearch search query s = r.
Proof.
  intros r. subst r.
  assert (Hsame : Plain.performRAGSearch search query s
                  = Rag.performRAGSearch search query s) by reflexivity.
  rewrite Hsame, performRAGSearch_spec.
  unfold store_of, trace_of, result_of, Rag.documents_found. simpl.
  repeat split.
  - by intros e ->.
  - by intros results -> ->.
  - by intros results -> ->.
Qed.

(** The loop that switches the mode of the sockets in [l]. *)
Lemma ragMode_loop_spec (b : bool) (l : list ws) (s : Store) :
  exists m,
    forEach l (Rag.set_ragMode b) s = (Done tt, set_connectionStates m s, [])
    /\ forall w, m !! w = if decide (w ∈ l)
                         then (fun _ => {| ragMode := b |}) <$> connectionStates s !! w
                         else connectionStates s !! w.
Proof.
  revert s. induction l as [|x l IH]; intros s.
  - exists (connectionStates s). split; [by destruct s|]. intros w.
    destruct (decide (w ∈ [])) as [H|_]; [by apply elem_of_nil in H|done].
  - simpl. unfold bind at 1. unfold Rag.set_ragMode at 1. unfold_js.
    destruct (connectionStates s !! x) as [st|] eqn:Hx; simpl.
    + destruct (IH (set_connectionStates (<[x:={| ragMode := b |}]> (connectionStates s)) s))
        as (m & Hrun & Hm).
      rewrite Hrun. exists m. split; [by destruct s|].
      intros w. rewrite Hm.
      replace (connectionStates (set_connectionStates
                 (<[x:={| ragMode := b |}]> (connectionStates s)) s))
        with (<[x:={| ragMode := b |}]> (connectionStates s)) by (by destruct s).
      destruct (decide (w = x)) as [->|Hne].
      * rewrite lookup_insert_eq, Hx.
        destruct (decide (x ∈ l)), (decide (x ∈ x :: l)) as [|Hn]; try done;
          exfalso; apply Hn; by left.
      * rewrite lookup_insert_ne by done.
        destruct (decide (w ∈ l)) as [Hin|Hnin], (decide (w ∈ x :: l)) as [Hin'|Hnin'];
          try done.
        -- exfalso. apply Hnin'. by right.
        -- apply elem_of_cons in Hin' as [?|?]; done.
    + destruct (IH s) as (m & Hrun & Hm). rewrite Hrun. exists m. split; [done|].
      intros w. rewrite Hm.
      destruct (decide (w = x)) as [->|Hne].
      * rewrite Hx. by destruct (decide (x ∈ l)), (decide (x ∈ x :: l)).
      * destruct (decide (w ∈ l)) as [Hin|Hnin], (decide (w ∈ x :: l)) as [Hin'|Hnin'];
          try done.
        -- exfalso. apply Hnin'. by right.
        -- apply elem_of_cons in Hin' as [?|?]; done.
Qed.

(** The loop of ['rag off'] in any state of the turn. *)
Lemma rag_off_loop_total (l : list ws) (s : Store) :
  exists s' t,
    forEach l Rag.rag_off s = (Done tt, s', t)
    /\ (t = [] \/ t = [assign_isProcessingRAG false]).
Proof.
  destruct l as [|w l]; [exists s, []; by split; [|left]|].
  destruct (isRAGActiveThisTurn s || isProcessingRAG s) eqn:Hflag.
  - destruct (rag_off_loop_resets (w :: l) s) as (s' & Hrun & _); [done|done|].
    exists s', [assign_isProcessingRAG false]. by split; [|right].
  - apply orb_false_iff in Hflag as [Ha Hp].
    destruct (rag_off_loop_idle (w :: l) s Ha Hp) as (s' & Hrun & _).
    exists s', []. by split; [|left].
Qed.

(** The webhook on a chat message: the sender's name is read for the log
    line, then the command runs; a throw on the way gives 500. *)
Lemma webhook_chat (search : outcome (list value)) (req_body text sender : value) (s : Store) :
  is_chat_message req_body text sender ->
  Rag.webhook search req_body s =
    match get sender "name" with
    | Thrown _ => (Done tt, s, [res_status 500])
    | Done _ =>
        match Rag.chat_command search text s with
        | (Done _, s1, t1) => (Done tt, s1, t1 ++ [res_status 200])
        | (Thrown _, s1, t1) => (Done tt, s1, t1 ++ [res_status 500])
        end
    end.
Proof.
  intros (data & d1 & d2 & He & Hd & Hd1 & Hd2 & Ht & Hs).
  unfold Rag.webhook. unfold_js. rewrite He, Hd. simpl. rewrite Hd1, Hd2, Ht, Hs.
  destruct (get sender "name"); [|reflexivity].
  destruct (Rag.chat_command search text s) as [[[[]|e] s1] t1]; reflexivity.
Qed.

(** The commands of a chat message either complete, with gate writes and
    search calls only, or throw before anything is done. *)
Lemma chat_command_total (search : outcome (list value)) (text : value) (s : Store) :
  (exists s' t,
      Rag.chat_command search text s = (Done tt, s', t)
      /\ Forall (fun a => forall code, a <> res_status code) t)
  \/ Rag.chat_command search text s = (Thrown TypeError, s, []).
Proof.
  unfold Rag.chat_command. destruct text as [| | | |t| |]; try (by right). left.
  unfold_js.
  destruct (includes (toLowerCase t) "rag on").
  { destruct (ragMode_loop_spec true (elements (wsConnections s)) s) as (m & Hrun & _).
    rewrite Hrun. eauto. }
  destruct (includes (toLowerCase t) "rag off").
  { destruct (rag_off_loop_total (elements (wsConnections s)) s) as (s' & t' & Hrun & Ht).
    rewrite Hrun. exists s', t'. split; [done|].
    destruct Ht as [->| ->]; repeat constructor. intros code H. discriminate H. }
  destruct (includes (toLowerCase t) "rag test").
  - rewrite performRAGSearch_spec. eexists _, _. split; [reflexivity|].
    repeat constructor. intros code H. discriminate H.
  - eauto.
Qed.

(** X2. The webhook answers every request, whatever its body, exactly
    once and last of all, with 200 or with 500, and does not throw. A
    request answered with 500 has had no effect at all. *)
Theorem X2_webhook_always_answers
    (search : outcome (list value)) (req_body : value) (s : Store) :
  exists (t : list action) (code : Z),
    result_of (Rag.webhook search req_body s) = Done tt
    /\ trace_of (Rag.webhook search req_body s) = t ++ [res_status code]
    /\ (code = 200 \/ code = 500)%Z
    /\ Forall (fun a => forall c, a <> res_status c) t
    /\ (code = 500%Z -> t = [] /\ store_of (Rag.webhook search req_body s) = s).
Proof.
  assert (Hfail : forall r, r = (Done tt, s, [res_status 500]) ->
    exists (t : list action) (code : Z),
      result_of r = Done tt /\ trace_of r = t ++ [res_status code]
      /\ (code = 200 \/ code = 500)%Z
      /\ Forall (fun a => forall c, a <> res_status c) t
      /\ (code = 500%Z -> t = [] /\ store_of r = s)).
  { intros r ->. exists [], 500%Z. repeat split; auto. }
  assert (Hskip : forall r, r = (Done tt, s, [res_status 200]) ->
    exists (t : list action) (code : Z),
      result_of r = Done tt /\ trace_of r = t ++ [res_status code]
      /\ (code = 200 \/ code = 500)%Z
      /\ Forall (fun a => forall c, a <> res_status c) t
      /\ (code = 500%Z -> t = [] /\ store_of r = s)).
  { intros r ->. exists [], 200%Z. repeat split; auto. }
  destruct (get req_body "event") as [event|e] eqn:He.
  2: { apply Hfail. unfold Rag.webhook. unfold_js. by rewrite He. }
  destruct (get req_body "data") as [data|e] eqn:Hd.
  2: { apply Hfail. unfold Rag.webhook. unfold_js. by rewrite He, Hd. }
  destruct (is_str event "participant_events.chat_message") eqn:Hev.
  2: { apply Hskip. unfold Rag.webhook. unfold_js. by rewrite He, Hd, Hev. }
  apply is_str_true in Hev. subst event.
  destruct (get data "data") as [d1|e] eqn:Hd1.
  2: { apply Hfail. unfold Rag.webhook. unfold_js. rewrite He, Hd. simpl. by rewrite Hd1. }
  destruct (get d1 "data") as [d2|e] eqn:Hd2.
  2: { apply Hfail. unfold Rag.webhook. unfold_js. rewrite He, Hd. simpl. by rewrite Hd1, Hd2. }
  destruct (get d2 "text") as [text|e] eqn:Ht.
  2: { apply Hfail. unfold Rag.webhook. unfold_js. rewrite He, Hd. simpl.
       by rewrite Hd1, Hd2, Ht. }
  destruct (get d1 "participant") as [sender|e] eqn:Hs.
  2: { apply Hfail. unfold Rag.webhook. unfold_js. rewrite He, Hd. simpl.
       by rewrite Hd1, Hd2, Ht, Hs. }
  rewrite (webhook_chat search req_body text sender s) by (by exists data, d1, d2).
  destruct (get sender "name"); [|by apply Hfail].
  destruct (chat_command_total search text s) as [(s' & t & -> & Hno)| ->].
  - exists t, 200%Z. repeat split; auto; discriminate.
  - by apply Hfail.
Qed.


Lemma get_done_not_nullish (v x : value) (k : string) :
  get v k = Done x -> is_nullish v = false.
Proof. by destruct v. Qed.

(** X3. A request whose event is not a chat message is answered with 200
    and has no effect, whatever else the body holds. *)
Theorem X3_other_events_are_acknowledged
    (search : outcome (list value)) (req_body event : value) (s : Store) :
  get req_body "event" = Done event ->
  is_str event "participant_events.chat_message" = false ->
  Rag.webhook search req_body s = (Done tt, s, [res_status 200]).
Proof.
  intros He Hev.
  destruct (get_not_nullish req_body "data" (get_done_not_nullish _ _ _ He)) as [data Hd].
  unfold Rag.webhook. unfold_js. by rewrite He, Hd, Hev.
Qed.

(** X4. A chat message whose text contains [rag on], in any case and
    also when it contains [rag off] as well, is answered with 200 and
    switches RAG mode on for every tracked socket that has a state. The
    turn, the runs in flight, the tracked sockets and the states of other
    sockets are left as they were. The name of the sender is written to
    the log before the command is run, so it is taken to be a primitive
    value, here and in the other properties of the commands. *)
Theorem X4_rag_on_switches_tracked_sockets
    (search : outcome (list value)) (req_body sender name : value) (t : string) (s : Store) :
  is_chat_message req_body (VStr t) sender ->
  get sender "name" = Done name ->
  is_primitive name = true ->
  includes (toLowerCase t) "rag on" = true ->
  let r := Rag.webhook search req_body s in
  result_of r = Done tt
  /\ trace_of r = [res_status 200]
  /\ turn_of (store_of r) = turn_of s
  /\ inflight (store_of r) = inflight s
  /\ wsConnections (store_of r) = wsConnections s
  /\ sessions (store_of r) = sessions s
  /\ (forall w, w ∈ wsConnections s -> is_Some (connectionStates s !! w) ->
               Rag.ragMode_is_true w (store_of r) = true)
  /\ (forall w, w ∉ wsConnections s ->
               connectionStates (store_of r) !! w = connectionStates s !! w).
Proof.
  intros Hchat Hname _ Hon r. subst r.
  rewrite (webhook_chat search req_body (VStr t) sender s Hchat), Hname.
  unfold Rag.chat_command. unfold_js. rewrite Hon.
  destruct (ragMode_loop_spec true (elements (wsConnections s)) s) as (m & Hrun & Hm).
  rewrite Hrun. unfold result_of, trace_of, store_of, turn_of. simpl.
  repeat split; try (by destruct s).
  - intros w Hw [st Hst]. unfold Rag.ragMode_is_true.
    replace (connectionStates (set_connectionStates m s)) with m by (by destruct s).
    rewrite Hm, Hst. rewrite decide_True by (by apply elem_of_elements). done.
  - intros w Hw.
    replace (connectionStates (set_connectionStates m s)) with m by (by destruct s).
    rewrite Hm. rewrite decide_False; [done|]. by rewrite elem_of_elements.
Qed.

(** X5. A chat message with [rag off] (and without [rag on]) received
    while the turn is idle is answered with 200 and switches RAG mode off
    for every tracked socket; the gate is not written and the transcript
    buffer keeps what it holds. *)
Theorem X5_rag_off_while_idle_keeps_buffer
    (search : outcome (list value)) (req_body sender name : value) (t : string) (s : Store) :
  is_chat_message req_body (VStr t) sender ->
  get sender "name" = Done name ->
  is_primitive name = true ->
  includes (toLowerCase t) "rag on" = false ->
  includes (toLowerCase t) "rag off" = true ->
  isRAGActiveThisTurn s = false ->
  isProcessingRAG s = false ->
  let r := Rag.webhook search req_body s in
  result_of r = Done tt
  /\ trace_of r = [res_status 200]
  /\ turn_of (store_of r) = turn_of s
  /\ inflight (store_of r) = inflight s
  /\ (forall w, w ∈ wsConnections s -> Rag.ragMode_is_true w (store_of r) = false).
Proof.
  intros Hchat Hname _ Hon Hoff Ha Hp r. subst r.
  rewrite (webhook_chat search req_body (VStr t) sender s Hchat), Hname.
  unfold Rag.chat_command. unfold_js. rewrite Hon, Hoff.
  destruct (rag_off_loop_idle (elements (wsConnections s)) s Ha Hp)
    as (s' & Hrun & Ha' & Hp' & Hb' & Hi' & _ & Hm').
  rewrite Hrun. unfold result_of, trace_of, store_of, turn_of. simpl.
  repeat split; try done.
  - by rewrite Ha', Hp', Hb', Ha, Hp.
  - intros w Hw. apply Hm'. right. by apply elem_of_elements.
Qed.


(** X7. A chat message without a sender, or whose text is not a string,
    is answered with 500 and no command is run, whatever the text says:
    the sender's name is read, for the log line, before the text is
    looked at. *)
Theorem X7_chat_message_without_sender_is_rejected
    (search : outcome (list value)) (req_body text sender : value) (s : Store) :
  is_chat_message req_body text sender ->
  is_nullish sender = true \/ (forall t, text <> VStr t) ->
  Rag.webhook search req_body s = (Done tt, s, [res_status 500]).
Proof.
  intros Hchat Hbad.
  rewrite (webhook_chat search req_body text sender s Hchat).
  destruct Hbad as [Hs|Ht].
  - by rewrite (get_nullish sender "name" Hs).
  - destruct (get sender "name"); [|reflexivity].
    unfold Rag.chat_command. destruct text; try reflexivity. by destruct (Ht s0).
Qed.


(** X8. Whatever reaches the server after startup, the turn is never
    armed and processing at the same time. *)
Theorem X8_never_armed_and_processing (inputs : list input) :
  let s := store_of (run inputs startup) in
  isRAGActiveThisTurn s && isProcessingRAG s = false.
Proof.
  intros s. subst s.
  destruct (run_consistent inputs startup startup_consistent) as (H & _). exact H.
Qed.

(** X9. Whatever reaches the server after startup, a socket is tracked
    exactly when it has a connection state. *)
Theorem X9_tracked_sockets_have_a_state (inputs : list input) (w : ws) :
  let s := store_of (run inputs startup) in
  (w ∈ wsConnections s) <-> is_Some (connectionStates s !! w).
Proof.
  intros s. subst s.
  destruct (run_consistent inputs startup startup_consistent) as (_ & _ & H).
  rewrite <- H. apply elem_of_dom.
Qed.

(** X10. Whatever reaches the server after startup, while the gate is
    shut a run of [performRAGProcess] is in flight: the gate is never
    left shut with nothing that will open it. *)
Theorem X10_shut_gate_has_a_run_in_flight (inputs : list input) :
  let s := store_of (run inputs startup) in
  isProcessingRAG s = true -> inflight s <> [].
Proof.
  intros s. subst s.
  destruct (run_consistent inputs startup startup_consistent) as (_ & H & _). exact H.
Qed.

(** X11. Closing a client socket that the server has accepted
    disconnects its realtime client and removes the socket from the
    tracked set and from the states; its queue is kept and marked not
    connected. The turn, the runs in flight and every other socket are
    left as they are. *)
Theorem X11_close_forgets_the_socket_only (w : ws) (se : Session) (s : Store) :
  sessions s !! w = Some se ->
  let r := Rag.on_close w s in
  result_of r = Done tt
  /\ trace_of r = [realtime_disconnect w]
  /\ (w ∉ wsConnections (store_of r))
  /\ connectionStates (store_of r) !! w = None
  /\ sessions (store_of r) !! w
     = Some {| isConnected := false; messageQueue := messageQueue se |}
  /\ turn_of (store_of r) = turn_of s
  /\ inflight (store_of r) = inflight s
  /\ (forall w', w' <> w ->
        ((w' ∈ wsConnections (store_of r)) <-> (w' ∈ wsConnections s))
        /\ connectionStates (store_of r) !! w' = connectionStates s !! w'
        /\ sessions (store_of r) !! w' = sessions s !! w').
Proof.
  intros Hs r. subst r. unfold Rag.on_close, Rag.set_session. unfold_js. rewrite Hs.
  destruct s as [processing buffer armed states sockets sess running].
  unfold result_of, trace_of, store_of, turn_of. simpl.
  repeat split; try done.
  - intros [_ Hout]%elem_of_difference. apply Hout. by apply elem_of_singleton.
  - apply lookup_delete_eq.
  - apply lookup_insert_eq.
  - by intros [Hin _]%elem_of_difference.
  - intros Hin. apply elem_of_difference. split; [done|]. by intros ?%elem_of_singleton.
  - by apply lookup_delete_ne.
  - by apply lookup_insert_ne.
Qed.

(** X12. When the connection to the speech API cannot be established,
    the client socket is closed and the messages that the client sent in
    the meantime are never forwarded. *)
Theorem X12_failed_connect_forwards_nothing (w : ws) (messages : list string) (s : Store) :
  let r := run (connection w :: map (message w) messages ++ [connect_rejected w]) s in
  result_of r = Done tt
  /\ trace_of r = [realtime_connect w; ws_close w]
  /\ sessions (store_of r) !! w
     = Some {| isConnected := false; messageQueue := messages |}.
Proof.
  intros r.
  assert (Hr : exists s',
    r = (Done tt, s', [realtime_connect w; ws_close w])
    /\ sessions s' !! w = Some {| isConnected := false; messageQueue := messages |}).
  { subst r. unfold Rag.run. simpl. unfold bind at 1.
    unfold Rag.on_connection at 1, Rag.set_session. unfold_js. simpl.
    rewrite forEach_app. unfold bind at 1.
    match goal with |- context [forEach (map (message w) messages) _ ?s1] =>
      destruct (messages_queued JSON_parse JSON_stringify OPENAI_API_KEY w messages [] s1)
        as (s' & Hrun & _ & _ & Hq) end.
    { destruct s; simpl. by rewrite lookup_insert_eq. }
    unfold Rag.run in Hrun. rewrite Hrun. simpl. unfold Rag.on_connect_rejected. unfold_js.
    exists s'. done. }
  destruct Hr as (s' & -> & Hq). done.
Qed.

(** X13. The handler of client messages never throws and never changes
    the store, whatever the message: text that does not parse, and the
    text [null], are dropped; anything else leads to at most one send, of
    the parsed event under its own type. *)
Theorem X13_client_message_never_breaks_the_relay (w : ws) (data : string) (s : Store) :
  let r := Rag.messageHandler JSON_parse w data s in
  result_of r = Done tt
  /\ store_of r = s
  /\ (trace_of r = []
      \/ exists event type,
           JSON_parse data = Done event
           /\ get event "type" = Done type
           /\ trace_of r = [realtime_send w type event])
  /\ (forall e, JSON_parse data = Thrown e -> trace_of r = [])
  /\ (JSON_parse data = Done VNull -> trace_of r = []).
Proof.
  intros r. subst r. unfold Rag.messageHandler, result_of, store_of, trace_of. unfold_js.
  destruct (JSON_parse data) as [event|e]; simpl.
  - destruct (get event "type") as [type|e] eqn:Ht; simpl.
    + destruct ((isRAGActiveThisTurn s || isProcessingRAG s) && is_str type "response.create");
        simpl; repeat split; try done; try (by left);
        try (right; by exists event, type); intros; by simplify_eq/=.
    + repeat split; try done; by left.
  - repeat split; try done; by left.
Qed.

(** X14. With the turn idle, the handler of client messages of the
    retrieval server does exactly what the one of the plain server
    does. *)
Theorem X14_idle_client_handler_is_plain (w : ws) (data : string) (s : Store) :
  isRAGActiveThisTurn s = false ->
  isProcessingRAG s = false ->
  Rag.messageHandler JSON_parse w data s = Plain.messageHandler JSON_parse w data s.
Proof.
  intros Ha Hp. unfold Rag.messageHandler, Plain.messageHandler. unfold_js.
  rewrite Ha, Hp. destruct (JSON_parse data) as [event|e]; simpl; [|reflexivity].
  destruct (get event "type"); reflexivity.
Qed.

(** X15. Whatever the event and the state, the handler of provider
    events sends nothing upstream and nothing to another socket: all it
    does is send that event, unchanged and at most once, to its own
    socket, write the gate, and start a run for its own socket. *)
Theorem X15_relay_never_alters_or_misroutes (w : ws) (event : value) (s : Store) :
  let t := trace_of (Rag.on_server_event JSON_stringify w event s) in
  Forall (relay_action w (JSON_stringify event)) t
  /\ (length (List.filter (fun a => match a with ws_send _ _ => true | _ => false end) t)
      <= 1)%nat.
Proof.
  destruct s as [processing buffer armed states sockets sess running].
  unfold Rag.on_server_event, Rag.on_speech_started, Rag.on_transcript_delta,
    Rag.on_transcript_done, trace_of.
  unfold_js. simpl. split_cases; (split; [repeat (constructor; simpl; auto)|simpl; lia]).
Qed.

Lemma remove_first_other (x y : ws * string) (l : list (ws * string)) :
  x <> y -> y ∈ l -> y ∈ Rag.remove_first x l.
Proof.
  intros Hne. induction l as [|z l IH]; simpl; [done|].
  intros [->|Hin]%elem_of_cons.
  - rewrite decide_False by done. by left.
  - destruct (decide (x = z)); [done|]. right. by apply IH.
Qed.

Lemma remove_first_length (x : ws * string) (l : list (ws * string)) :
  x ∈ l -> S (length (Rag.remove_first x l)) = length l.
Proof.
  induction l as [|z l IH]; simpl; [by intros H%elem_of_nil|].
  intros Hin. destruct (decide (x = z)) as [->|Hne]; [done|].
  apply elem_of_cons in Hin as [->|Hin]; [done|]. simpl. by rewrite IH.
Qed.

(** X16. A run that settles opens the gate whichever run shut it, and
    touches nothing else of the turn: the armed flag and the buffer stay,
    it leaves the list of runs in flight shorter by itself, and every
    other run stays in flight behind the open gate. *)
Theorem X16_settled_run_opens_gate_for_all
    (w w' : ws) (userQuery q' : string) (env : rag_env) (s : Store) :
  (w, userQuery) ∈ inflight s ->
  (w', q') ∈ inflight s ->
  (w, userQuery) <> (w', q') ->
  let r := Rag.on_rag_settled JSON_stringify OPENAI_API_KEY w userQuery env s in
  result_of r = Done tt
  /\ isProcessingRAG (store_of r) = false
  /\ isRAGActiveThisTurn (store_of r) = isRAGActiveThisTurn s
  /\ userTranscriptForRAG (store_of r) = userTranscriptForRAG s
  /\ (w', q') ∈ inflight (store_of r)
  /\ S (length (inflight (store_of r))) = length (inflight s).
Proof.
  intros Hin Hin' Hne r. subst r. rewrite rag_settled_spec by done.
  unfold result_of, store_of. simpl.
  destruct s as [processing buffer armed states sockets sess running]. simpl in *.
  repeat split.
  - by apply remove_first_other.
  - by apply remove_first_length.
Qed.


Lemma substring0_length (n : nat) (s : string) :
  String.length (substring0 n s) = Nat.min n (String.length s).
Proof.
  unfold substring0. revert s. induction n as [|n IH]; intros [|c s]; simpl; try reflexivity.
  by rewrite IH.
Qed.

Lemma substring0_prefix (n : nat) (s : string) :
  String.prefix (substring0 n s) s = true.
Proof.
  unfold substring0. revert s. induction n as [|n IH]; intros [|c s]; simpl; try reflexivity.
  destruct (ascii_dec c c); [apply IH|done].
Qed.

(** X17. An entry of the context is the label of the document followed
    by a beginning of its content that is never longer than 300
    characters: the whole content when it is shorter, its first 300
    characters otherwise. An entry exists only for a content that is a
    string. *)
Theorem X17_context_entry_is_bounded (i : nat) (doc : value) (entry : string) :
  Rag.document_entry JSON_stringify i doc = Done entry ->
  exists content,
    Rag.document_content JSON_stringify doc = Done (VStr content)
    /\ entry = "Document " +:+ string_of_nat (i + 1) +:+ ":"
               +:+ String "010" (substring0 300 content)
    /\ String.length (substring0 300 content) = Nat.min 300 (String.length content)
    /\ String.prefix (substring0 300 content) content = true.
Proof.
  unfold Rag.document_entry.
  destruct (Rag.document_content JSON_stringify doc) as [content|e]; [|discriminate].
  destruct content as [| | | |content| |]; simpl; try discriminate.
  intros H. injection H as <-. exists content.
  split; [reflexivity|]. split; [reflexivity|].
  split; [apply substring0_length|apply substring0_prefix].
Qed.



Lemma rag_off_idle_is_plain (l : list ws) (s : Store) :
  isRAGActiveThisTurn s = false ->
  isProcessingRAG s = false ->
  forEach l Rag.rag_off s = forEach l (Plain.set_ragMode false) s.
Proof.
  revert s. induction l as [|w l IH]; intros s Ha Hp; [reflexivity|].
  simpl. unfold bind. rewrite rag_off_spec, Ha, Hp. simpl.
  unfold Plain.set_ragMode. unfold_js.
  destruct (connectionStates s !! w); simpl.
  - rewrite IH by (by destruct s). reflexivity.
  - replace (set_connectionStates (connectionStates s) s) with s by (by destruct s).
    by rewrite IH.
Qed.

(** X19. With the turn idle, the webhook of the retrieval server does
    exactly what the webhook of the plain server does, on every
    request. *)
Theorem X19_idle_webhook_is_plain
    (search : outcome (list value)) (req_body : value) (s : Store) :
  isRAGActiveThisTurn s = false ->
  isProcessingRAG s = false ->
  Rag.webhook search req_body s = Plain.webhook search req_body s.
Proof.
  intros Ha Hp. unfold Rag.webhook, Plain.webhook, Rag.chat_command, Plain.chat_command.
  unfold_js.
  destruct (get req_body "event") as [event|e]; simpl; [|reflexivity].
  destruct (get req_body "data") as [data|e]; simpl; [|reflexivity].
  destruct (is_str event "participant_events.chat_message"); simpl; [|reflexivity].
  destruct (get data "data") as [d1|e]; simpl; [|reflexivity].
  destruct (get d1 "data") as [d2|e]; simpl; [|reflexivity].
  destruct (get d2 "text") as [text|e]; simpl; [|reflexivity].
  destruct (get d1 "participant") as [sender|e]; simpl; [|reflexivity].
  destruct (get sender "name") as [name|e]; simpl; [|reflexivity].
  destruct text as [| | | |t| |]; simpl; try reflexivity.
  destruct (includes (toLowerCase t) "rag on"); [reflexivity|].
  destruct (includes (toLowerCase t) "rag off"); [|reflexivity].
  by rewrite rag_off_idle_is_plain.
Qed.

Lemma plain_handler_spec (w : ws) (data : string) (s : Store) :
  Plain.messageHandler JSON_parse w data s = (Done tt, s, forwarded JSON_parse w data).
Proof.
  unfold Plain.messageHandler, forwarded. unfold_js.
  destruct (JSON_parse data) as [event|e]; simpl; [|reflexivity].
  destruct (get event "type"); reflexivity.
Qed.

Lemma plain_queued (w : ws) (l queue : list string) (s : Store) :
  sessions s !! w = Some {| isConnected := false; messageQueue := queue |} ->
  exists s',
    forEach l (Plain.on_message JSON_parse w) s = (Done tt, s', [])
    /\ sessions s' !! w = Some {| isConnected := false; messageQueue := queue ++ l |}.
Proof.
  revert queue s. induction l as [|data l IH]; intros queue s Hs.
  - exists s. by rewrite app_nil_r.
  - simpl. unfold bind at 1. unfold Plain.on_message at 1. unfold Plain.set_session.
    unfold_js. rewrite Hs. simpl.
    match goal with |- context [forEach _ _ ?s1] =>
      destruct (IH (queue ++ [data]) s1) as (s' & Hrun & Hq) end.
    { destruct s; simpl. by rewrite lookup_insert_eq. }
    rewrite Hrun. exists s'. rewrite <- app_assoc in Hq. done.
Qed.

Lemma plain_drain (w : ws) (queue : list string) (s : Store) :
  sessions s !! w = Some {| isConnected := true; messageQueue := queue |} ->
  exists s',
    Plain.drain JSON_parse w queue s = (Done tt, s', flat_map (forwarded JSON_parse w) queue)
    /\ sessions s' !! w = Some {| isConnected := true; messageQueue := [] |}.
Proof.
  revert s. induction queue as [|data rest IH]; intros s Hs.
  - exists s. done.
  - simpl. unfold bind at 1. unfold Plain.set_session at 1. unfold_js. simpl.
    match goal with |- context [Plain.messageHandler _ w data ?s1] =>
      rewrite (plain_handler_spec w data s1);
      destruct (IH s1) as (s' & Hrun & Hq);
      [destruct s; simpl; by rewrite lookup_insert_eq|];
      rewrite Hrun; exists s' end.
    done.
Qed.

Lemma plain_direct (w : ws) (l queue : list string) (s : Store) :
  sessions s !! w = Some {| isConnected := true; messageQueue := queue |} ->
  forEach l (Plain.on_message JSON_parse w) s =
    (Done tt, s, flat_map (forwarded JSON_parse w) l).
Proof.
  intros Hs. induction l as [|data l IH]; simpl; [reflexivity|].
  unfold bind. unfold Plain.on_message at 1. unfold_js. rewrite Hs. simpl.
  by rewrite plain_handler_spec, IH.
Qed.

(** X20. In the plain server, from the moment a client connects: the
    messages it sends before the connection to the speech API is ready
    are sent when it becomes ready, those after it as they come, and over
    all every message that parses to an event is forwarded once, under
    its own type and in the order of arrival; what does not parse is
    dropped. *)
Theorem X20_plain_relay_forwards_in_order
    (w : ws) (before after : list string) (s : Store) :
  let r :=
    (Plain.on_connection w ;;
     forEach before (Plain.on_message JSON_parse w) ;;
     Plain.on_connect_resolved JSON_parse w ;;
     forEach after (Plain.on_message JSON_parse w)) s in
  result_of r = Done tt
  /\ trace_of r = realtime_connect w :: flat_map (forwarded JSON_parse w) (before ++ after)
  /\ sessions (store_of r) !! w = Some {| isConnected := true; messageQueue := [] |}.
Proof.
  intros r.
  assert (Hr : exists s',
    r = (Done tt, s',
         realtime_connect w :: flat_map (forwarded JSON_parse w) (before ++ after))
    /\ sessions s' !! w = Some {| isConnected := true; messageQueue := [] |}).
  { subst r. unfold bind at 1. unfold Plain.on_connection at 1, Plain.set_session at 1.
    unfold_js. simpl.
    match goal with |- context [forEach before _ ?s1] =>
      destruct (plain_queued w before [] s1) as (s1' & Hrun1 & Hq1) end.
    { destruct s; simpl. by rewrite lookup_insert_eq. }
    rewrite Hrun1. simpl in *.
    unfold Plain.on_connect_resolved, Plain.set_session. unfold_js. rewrite Hq1. simpl.
    match goal with |- context [Plain.drain _ w before ?s2] =>
      destruct (plain_drain w before s2) as (s2' & Hrun2 & Hq2) end.
    { destruct s1'; simpl. by rewrite lookup_insert_eq. }
    rewrite Hrun2, (plain_direct w after [] s2' Hq2). simpl.
    exists s2'. by rewrite flat_map_app. }
  destruct Hr as (s' & -> & Hq). done.
Qed.

(** X21. A speech start is relayed in every state of the turn and
    empties the transcript buffer; it arms the turn exactly when its
    socket has RAG mode on and the gate is open, and disarms it
    otherwise. *)
Theorem X21_speech_start_resets_the_turn (w : ws) (event : value) (s : Store) :
  get event "type" = Done (VStr "input_audio_buffer.speech_started") ->
  let r := Rag.on_server_event JSON_stringify w event s in
  result_of r = Done tt
  /\ trace_of r = [ws_send w (JSON_stringify event)]
  /\ userTranscriptForRAG (store_of r) = ""
  /\ isRAGActiveThisTurn (store_of r) = Rag.ragMode_is_true w s && negb (isProcessingRAG s)
  /\ isProcessingRAG (store_of r) = isProcessingRAG s.
Proof.
  intros Ht r. subst r. rewrite (speech_started_any JSON_stringify w event s Ht).
  unfold result_of, trace_of, store_of. simpl. by destruct s.
Qed.


(** The store after [rag on]. *)
Lemma rag_on_store
    (search : outcome (list value)) (req_body sender name : value) (t : string) (s : Store) :
  is_chat_message req_body (VStr t) sender ->
  get sender "name" = Done name ->
  includes (toLowerCase t) "rag on" = true ->
  exists s1,
    Rag.webhook search req_body s = (Done tt, s1, [res_status 200])
    /\ wsConnections s1 = wsConnections s
    /\ (forall w, w ∈ wsConnections s -> is_Some (connectionStates s !! w) ->
                 Rag.ragMode_is_true w s1 = true).
Proof.
  intros Hchat Hname Hon.
  rewrite (webhook_chat search req_body (VStr t) sender s Hchat), Hname.
  unfold Rag.chat_command. unfold_js. rewrite Hon.
  destruct (ragMode_loop_spec true (elements (wsConnections s)) s) as (m & Hrun & Hm).
  rewrite Hrun. eexists. split; [reflexivity|]. split; [by destruct s|].
  intros w Hw [st Hst]. unfold Rag.ragMode_is_true.
  replace (connectionStates (set_connectionStates m s)) with m by (by destruct s).
  rewrite Hm, Hst. rewrite decide_True by (by apply elem_of_elements). done.
Qed.

(** X22. RAG mode is not inherited: after [rag on], a socket that
    connects starts with RAG mode off, while the sockets that were
    tracked keep it on. *)
Theorem X22_rag_mode_is_not_inherited
    (search : outcome (list value)) (req_body sender name : value) (t : string)
    (w : ws) (s : Store) :
  is_chat_message req_body (VStr t) sender ->
  get sender "name" = Done name ->
  is_primitive name = true ->
  includes (toLowerCase t) "rag on" = true ->
  w ∉ wsConnections s ->
  let s' := store_of ((Rag.webhook search req_body ;; Rag.on_connection w) s) in
  w ∈ wsConnections s'
  /\ Rag.ragMode_is_true w s' = false
  /\ (forall w', w' ∈ wsConnections s -> is_Some (connectionStates s !! w') ->
                Rag.ragMode_is_true w' s' = true).
Proof.
  intros Hchat Hname _ Hon Hw s'.
  destruct (rag_on_store search req_body sender name t s Hchat Hname Hon)
    as (s1 & Hrun & Hc & Hm).
  subst s'. unfold bind. rewrite Hrun.
  unfold Rag.on_connection, Rag.set_session, store_of, Rag.ragMode_is_true. unfold_js. simpl.
  destruct s1 as [processing buffer armed states sockets sess running]. simpl in *.
  repeat split.
  - apply elem_of_union_l. by apply elem_of_singleton.
  - by rewrite lookup_insert_eq.
  - intros w' Hw' Hst. rewrite lookup_insert_ne by (intros ->; done).
    by apply Hm.
Qed.


Ltac name_types :=
  repeat match goal with
         | H : is_str _ _ = true |- _ => apply is_str_true in H
         end;
  simplify_eq/=.


(** X24. A provider event on which the handler throws has had no effect:
    nothing was sent and the store is as it was. When the text of the
    event, which an armed turn appends to the buffer, is a primitive
    value, the handler throws only on an event that is [null] or
    [undefined], or, while the gate is shut, on one whose type is not a
    string. *)
Theorem X24_throwing_event_has_no_effect
    (w : ws) (event : value) (s : Store) (e : exn) :
  let r := Rag.on_server_event JSON_stringify w event s in
  result_of r = Thrown e ->
  store_of r = s
  /\ trace_of r = []
  /\ (is_primitive (get_opt event "text") = true ->
      is_nullish event = true
      \/ (isProcessingRAG s = true /\ forall t, get event "type" <> Done (VStr t))).
Proof.
  destruct s as [processing buffer armed states sockets sess running]. cbv zeta.
  destruct (is_nullish event) eqn:Hn.
  { destruct event; try discriminate Hn; destruct processing;
      unfold Rag.on_server_event, Rag.is_assistant_response, result_of, store_of, trace_of;
      unfold_js; simpl; intros _; (split; [reflexivity|]); (split; [reflexivity|]); intros _; by left. }
  destruct (get_not_nullish event "type" Hn) as [ty Ht].
  destruct (get_not_nullish event "text" Hn) as [tx Hx].
  unfold Rag.on_server_event, Rag.is_assistant_response, Rag.on_speech_started,
    Rag.on_transcript_delta, Rag.on_transcript_done, result_of, store_of, trace_of.
  unfold_js. simpl. rewrite ?Ht, ?Hx. simpl.
  split_cases; intros Hthrown; try discriminate Hthrown;
    (split; [reflexivity|]); (split; [reflexivity|]); intros _;
    right; (split; [reflexivity|]); intros t; discriminate.
Qed.

Lemma speech_lifecycle_is_no_response (event : value) (type : string) :
  startsWith type "input_audio_buffer." = true ->
  Rag.response_construction event type = false.
Proof.
  unfold startsWith, Rag.response_construction.
  destruct type as [|c rest]; [discriminate|]. cbn -[ascii_dec].
  destruct (ascii_dec "i" c) as [<-|]; [|discriminate]. intros _. reflexivity.
Qed.

(** X25. The events of the speech of the user, those whose type starts
    with [input_audio_buffer.], are never held back: also while the gate
    is shut each of them is relayed to the client. *)
Theorem X25_speech_events_pass_the_shut_gate
    (w : ws) (event : value) (type : string) (s : Store) :
  isProcessingRAG s = true ->
  get event "type" = Done (VStr type) ->
  startsWith type "input_audio_buffer." = true ->
  result_of (Rag.on_server_event JSON_stringify w event s) = Done tt
  /\ trace_of (Rag.on_server_event JSON_stringify w event s)
     = [ws_send w (JSON_stringify event)]
  /\ isProcessingRAG (store_of (Rag.on_server_event JSON_stringify w event s)) = true.
Proof.
  intros Hp Ht Hs.
  apply (relayed_while_processing JSON_stringify w event type s Hp Ht).
  by apply speech_lifecycle_is_no_response.
Qed.

End Coverage.

(** ** The further properties at concrete inputs *)

Lemma chat_is_chat_message (t : string) :
  is_chat_message (chat t) (VStr t) (VObj [("name", VStr "host")]).
Proof.
  exists (VObj [("data", VObj [("data", VObj [("text", VStr t)]);
                               ("participant", VObj [("name", VStr "host")])])]),
         (VObj [("data", VObj [("text", VStr t)]);
                ("participant", VObj [("name", VStr "host")])]),
         (VObj [("text", VStr t)]).
  repeat split; reflexivity.
Qed.

Lemma one_socket_tracked (processing armed : bool) (buffer : string) :
  0%nat ∈ wsConnections (one_socket processing armed buffer).
Proof. reflexivity. Qed.

Lemma X1_witness :
  result_of (Rag.performRAGSearch (Thrown Failure) "plan" startup) = Done []
  /\ result_of (Rag.performRAGSearch (Done [VObj [("content", VStr "notes")]; VNull])
                  "plan" startup) = Done []
  /\ result_of (Rag.performRAGSearch (Done [VObj [("content", VStr "notes")]])
                  "plan" startup) = Done [VObj [("content", VStr "notes")]].
Proof.
  split; [|split].
  - destruct (X1_search_errors_become_empty_results (Thrown Failure) "plan" startup)
      as (_ & _ & H & _). apply (H Failure). reflexivity.
  - destruct (X1_search_errors_become_empty_results
                (Done [VObj [("content", VStr "notes")]; VNull]) "plan" startup)
      as (_ & _ & _ & H & _).
    apply (H [VObj [("content", VStr "notes")]; VNull]); reflexivity.
  - destruct (X1_search_errors_become_empty_results
                (Done [VObj [("content", VStr "notes")]]) "plan" startup)
      as (_ & _ & _ & _ & H & _).
    apply (H [VObj [("content", VStr "notes")]]); reflexivity.
Defined.

Lemma X2_witness :
  result_of (Rag.webhook (Done []) VNull (one_socket true false "kept")) = Done tt
  /\ store_of (Rag.webhook (Done []) VNull (one_socket true false "kept"))
     = one_socket true false "kept".
Proof.
  destruct (X2_webhook_always_answers (Done []) VNull (one_socket true false "kept"))
    as (t & code & Hres & Htrace & Hcode & Hno & H500).
  split; [exact Hres|].
  apply H500. destruct Hcode as [Hcode|Hcode]; [|exact Hcode].
  subst code. destruct t as [|a t]; [discriminate Htrace|].
  destruct t; discriminate Htrace.
Defined.

Lemma X3_witness :
  get (VObj [("event", VStr "bot.status_change")]) "event" = Done (VStr "bot.status_change")
  /\ Rag.webhook (Done []) (VObj [("event", VStr "bot.status_change")])
       (one_socket true false "kept")
     = (Done tt, one_socket true false "kept", [res_status 200]).
Proof.
  split; [reflexivity|].
  apply (X3_other_events_are_acknowledged (Done [])
           (VObj [("event", VStr "bot.status_change")]) (VStr "bot.status_change"));
    reflexivity.
Defined.

Lemma X4_witness :
  let r := Rag.webhook (Done []) (chat "No rag off, RAG ON please") two_sockets in
  includes (toLowerCase "No rag off, RAG ON please") "rag on" = true
  /\ includes (toLowerCase "No rag off, RAG ON please") "rag off" = true
  /\ trace_of r = [res_status 200]
  /\ Rag.ragMode_is_true 0 (store_of r) = true
  /\ Rag.ragMode_is_true 1 (store_of r) = true.
Proof.
  intros r. split; [reflexivity|]. split; [reflexivity|].
  destruct (X4_rag_on_switches_tracked_sockets (Done []) (chat "No rag off, RAG ON please")
              (VObj [("name", VStr "host")]) (VStr "host") "No rag off, RAG ON please"
              two_sockets (chat_is_chat_message _) eq_refl eq_refl eq_refl)
    as (_ & Htrace & _ & _ & _ & _ & Hon & _).
  split; [exact Htrace|]. split.
  - apply (Hon 0%nat); [reflexivity|by eexists].
  - apply (Hon 1%nat); [reflexivity|by eexists].
Defined.

Lemma X5_witness :
  let s := one_socket false false "left over" in
  let r := Rag.webhook (Done []) (chat "rag off") s in
  (isRAGActiveThisTurn s = false /\ isProcessingRAG s = false)
  /\ trace_of r = [res_status 200]
  /\ turn_of (store_of r) = (false, false, "left over")
  /\ Rag.ragMode_is_true 0 (store_of r) = false.
Proof.
  intros s r. split; [split; reflexivity|].
  destruct (X5_rag_off_while_idle_keeps_buffer (Done []) (chat "rag off")
              (VObj [("name", VStr "host")]) (VStr "host") "rag off" s
              (chat_is_chat_message _) eq_refl eq_refl eq_refl eq_refl eq_refl eq_refl)
    as (_ & Htrace & Hturn & _ & Hoff).
  split; [exact Htrace|]. split; [exact Hturn|].
  exact (Hoff 0%nat (one_socket_tracked _ _ _)).
Defined.


Lemma X7_witness :
  let req_body :=
    VObj [("event", VStr "participant_events.chat_message");
          ("data", VObj [("data", VObj [("data", VObj [("text", VStr "rag off")])])])] in
  is_chat_message req_body (VStr "rag off") VUndef
  /\ Rag.webhook (Done []) req_body (one_socket true false "kept")
     = (Done tt, one_socket true false "kept", [res_status 500]).
Proof.
  intros req_body.
  assert (Hchat : is_chat_message req_body (VStr "rag off") VUndef).
  { exists (VObj [("data", VObj [("data", VObj [("text", VStr "rag off")])])]),
           (VObj [("data", VObj [("text", VStr "rag off")])]),
           (VObj [("text", VStr "rag off")]).
    repeat split; reflexivity. }
  split; [exact Hchat|].
  apply (X7_chat_message_without_sender_is_rejected (Done []) req_body
           (VStr "rag off") VUndef _ Hchat).
  left. reflexivity.
Defined.

Lemma X9_witness :
  let s := store_of (Rag.run demo_parse demo_stringify "KEY" (first_turn ++ [close 0]) startup) in
  (0%nat ∈ wsConnections s) <-> is_Some (connectionStates s !! 0%nat).
Proof.
  apply (X9_tracked_sockets_have_a_state demo_parse demo_stringify "KEY"
           (first_turn ++ [close 0]) 0%nat).
Defined.

Lemma X10_witness :
  let s := store_of (Rag.run demo_parse demo_stringify "KEY" first_turn startup) in
  isProcessingRAG s = true /\ inflight s <> [].
Proof.
  intros s. split; [reflexivity|].
  apply (X10_shut_gate_has_a_run_in_flight demo_parse demo_stringify "KEY" first_turn).
  reflexivity.
Defined.

Lemma X11_witness :
  let s := store_of (Rag.run demo_parse demo_stringify "KEY" first_turn startup) in
  let r := Rag.on_close 0 s in
  sessions s !! 0%nat = Some {| isConnected := true; messageQueue := [] |}
  /\ trace_of r = [realtime_disconnect 0]
  /\ connectionStates (store_of r) !! 0%nat = None
  /\ turn_of (store_of r) = (false, true, "what is the plan").
Proof.
  intros s r.
  assert (Hs : sessions s !! 0%nat = Some {| isConnected := true; messageQueue := [] |})
    by reflexivity.
  split; [exact Hs|].
  destruct (X11_close_forgets_the_socket_only 0 _ s Hs)
    as (_ & Htrace & _ & Hstate & _ & Hturn & _).
  split; [exact Htrace|]. split; [exact Hstate|]. exact Hturn.
Defined.

Lemma X13_witness :
  demo_parse "{" = Thrown SyntaxError
  /\ demo_parse "null" = Done VNull
  /\ trace_of (Rag.messageHandler demo_parse 0 "{" (one_socket false false "")) = []
  /\ trace_of (Rag.messageHandler demo_parse 0 "null" (one_socket false false "")) = [].
Proof.
  split; [reflexivity|]. split; [reflexivity|]. split.
  - destruct (X13_client_message_never_breaks_the_relay demo_parse 0 "{"
                (one_socket false false "")) as (_ & _ & _ & H & _).
    apply (H SyntaxError). reflexivity.
  - destruct (X13_client_message_never_breaks_the_relay demo_parse 0 "null"
                (one_socket false false "")) as (_ & _ & _ & _ & H).
    apply H. reflexivity.
Defined.

Lemma X14_witness :
  Rag.messageHandler demo_parse 0 "response.create" (one_socket false false "")
  = Plain.messageHandler demo_parse 0 "response.create" (one_socket false false "").
Proof.
  apply (X14_idle_client_handler_is_plain demo_parse 0 "response.create"
           (one_socket false false "")); reflexivity.
Defined.

Lemma X16_witness :
  let s := store_of (Rag.run demo_parse demo_stringify "KEY" second_turn startup) in
  let env := {| search_results := Done [];
                fetch_result := Thrown Failure;
                send_accepts := true |} in
  let r := Rag.on_rag_settled demo_stringify "KEY" 0 "what is the plan" env s in
  inflight s = [(0%nat, "what is the plan"); (0%nat, "and then")]
  /\ isProcessingRAG s = true
  /\ isProcessingRAG (store_of r) = false
  /\ (0%nat, "and then") ∈ inflight (store_of r).
Proof.
  intros s env r. split; [reflexivity|]. split; [reflexivity|].
  destruct (X16_settled_run_opens_gate_for_all demo_stringify "KEY" 0 0
              "what is the plan" "and then" env s)
    as (_ & Hgate & _ & _ & Hstill & _).
  - change (inflight s) with [(0%nat, "what is the plan"); (0%nat, "and then")].
    constructor 1.
  - change (inflight s) with [(0%nat, "what is the plan"); (0%nat, "and then")].
    constructor 2; constructor 1.
  - discriminate.
  - split; [exact Hgate|exact Hstill].
Defined.

Lemma X17_witness :
  Rag.document_entry demo_stringify 1 (VObj [("text", VStr "second notes")])
  = Done (Rag.document_label 1 "second notes")
  /\ exists content,
       Rag.document_content demo_stringify (VObj [("text", VStr "second notes")])
       = Done (VStr content)
       /\ Rag.document_label 1 "second notes"
          = "Document " +:+ string_of_nat (1 + 1) +:+ ":"
            +:+ String "010" (substring0 300 content)
       /\ String.length (substring0 300 content) = Nat.min 300 (String.length content)
       /\ String.prefix (substring0 300 content) content = true.
Proof.
  split; [reflexivity|].
  apply (X17_context_entry_is_bounded demo_stringify 1
           (VObj [("text", VStr "second notes")])).
  reflexivity.
Defined.


Lemma X19_witness :
  Rag.webhook (Done []) (chat "rag off") (one_socket false false "left over")
  = Plain.webhook (Done []) (chat "rag off") (one_socket false false "left over").
Proof.
  apply (X19_idle_webhook_is_plain (Done []) (chat "rag off")
           (one_socket false false "left over")); reflexivity.
Defined.

Lemma X21_witness :
  let s := one_socket true false "stale" in
  let r := Rag.on_server_event demo_stringify 0 (ev "input_audio_buffer.speech_started") s in
  get (ev "input_audio_buffer.speech_started") "type"
  = Done (VStr "input_audio_buffer.speech_started")
  /\ trace_of r = [ws_send 0 "input_audio_buffer.speech_started"]
  /\ userTranscriptForRAG (store_of r) = ""
  /\ isRAGActiveThisTurn (store_of r) = false.
Proof.
  intros s r. split; [reflexivity|].
  destruct (X21_speech_start_resets_the_turn demo_stringify 0
              (ev "input_audio_buffer.speech_started") s eq_refl)
    as (_ & Htrace & Hbuf & Harmed & _).
  split; [exact Htrace|]. split; [exact Hbuf|]. exact Harmed.
Defined.

Lemma X22_witness :
  let s := one_socket false false "" in
  let s' := store_of ((Rag.webhook (Done []) (chat "rag on") ;; Rag.on_connection 1) s) in
  (1%nat ∉ wsConnections s)
  /\ Rag.ragMode_is_true 1 s' = false
  /\ Rag.ragMode_is_true 0 s' = true.
Proof.
  intros s s'.
  assert (Hnew : 1%nat ∉ wsConnections s).
  { intros H. vm_compute in H. discriminate H. }
  split; [exact Hnew|].
  destruct (X22_rag_mode_is_not_inherited (Done []) (chat "rag on")
              (VObj [("name", VStr "host")]) (VStr "host") "rag on" 1 s
              (chat_is_chat_message _) eq_refl eq_refl eq_refl Hnew)
    as (_ & Hoff & Hon).
  split; [exact Hoff|].
  apply (Hon 0%nat (one_socket_tracked _ _ _)). by eexists.
Defined.


Lemma X24_witness :
  let s := one_socket false true "hello" in
  result_of (Rag.on_server_event demo_stringify 0 VNull s) = Thrown TypeError
  /\ store_of (Rag.on_server_event demo_stringify 0 VNull s) = s
  /\ trace_of (Rag.on_server_event demo_stringify 0 VNull s) = [].
Proof.
  intros s. split; [reflexivity|].
  destruct (X24_throwing_event_has_no_effect demo_stringify 0 VNull s TypeError eq_refl)
    as (Hstore & Htrace & _).
  split; [exact Hstore|exact Htrace].
Defined.

Lemma X25_witness :
  let s := one_socket true false "" in
  (isProcessingRAG s = true
   /\ startsWith "input_audio_buffer.committed" "input_audio_buffer." = true)
  /\ trace_of (Rag.on_server_event demo_stringify 0 (ev "input_audio_buffer.committed") s)
     = [ws_send 0 "input_audio_buffer.committed"].
Proof.
  intros s. split; [split; reflexivity|].
  apply (X25_speech_events_pass_the_shut_gate demo_stringify 0
           (ev "input_audio_buffer.committed") "input_audio_buffer.committed" s);
    reflexivity.
Defined.
